(** * Smart-PDF-Chatbot: the table-dashboard pipeline and the comparison path

    A shallow embedding of [backend/utils/pdfDashboard.js] ([extractTable],
    [generateHTML], [saveHTMLToFile], [pdfTableToHTMLDashboard]) and of the
    [/compare-html] and [/dashboard] handlers of [backend/server.js],
    together with the ECMAScript built-ins they call ([String.prototype.trim],
    [split], [match], [replace], [isNaN], [Number]).

    JavaScript strings are sequences of UTF-16 code units: a string is a
    [list N], one [N] per code unit. *)

From Stdlib Require Import NArith ZArith List Ascii String Lia Bool.
From Stdlib Require Import DecimalString DecimalZ.
From stdpp Require Import base decidable option list gmap.
Import ListNotations.

Open Scope N_scope.

Abbreviation jsstring := (list N).

(** An ASCII literal as a JavaScript string. *)
Definition u16 (s : string) : jsstring :=
  List.map N_of_ascii (list_ascii_of_string s).
Arguments u16 s%_string.

(** ** ECMAScript string built-ins *)

Module JS.

(** WhiteSpace and LineTerminator code units: what [trim] strips and what
    the class [\s] of a regular expression matches. *)
Definition is_ws (c : N) : bool :=
  ((9 <=? c) && (c <=? 13)) || (c =? 32) || (c =? 160) || (c =? 5760)
  || ((8192 <=? c) && (c <=? 8202)) || (c =? 8232) || (c =? 8233)
  || (c =? 8239) || (c =? 8287) || (c =? 12288) || (c =? 65279).

Fixpoint take_while (p : N -> bool) (s : jsstring) : jsstring :=
  match s with
  | c :: r => if p c then c :: take_while p r else []
  | [] => []
  end.

Fixpoint drop_while (p : N -> bool) (s : jsstring) : jsstring :=
  match s with
  | c :: r => if p c then drop_while p r else s
  | [] => []
  end.

Definition trimStart (s : jsstring) : jsstring := drop_while is_ws s.
Definition trimEnd (s : jsstring) : jsstring := rev (drop_while is_ws (rev s)).
Definition trim (s : jsstring) : jsstring := trimEnd (trimStart s).

Definition is_empty (s : jsstring) : bool :=
  match s with [] => true | _ => false end.

(** [s.split(c)] for a one-character separator. *)
Fixpoint split_char (sep : N) (s : jsstring) : list jsstring :=
  match s with
  | [] => [[]]
  | c :: r =>
      if c =? sep then [] :: split_char sep r
      else match split_char sep r with
           | cur :: rest => (c :: cur) :: rest
           | [] => [[c]]
           end
  end.

(** [s.replace(/c/g, by)] for a one-character pattern. *)
Definition replace_all (c : N) (by_ : jsstring) (s : jsstring) : jsstring :=
  flat_map (fun x => if x =? c then by_ else [x]) s.

End JS.

(** ** The pattern [/\t|\s{2,}/] *)

Module Sep.
Import JS.

Definition TAB : N := 9.

(** Length of the whitespace run at the start of [s]. *)
Fixpoint ws_run (s : jsstring) : nat :=
  match s with
  | c :: r => if is_ws c then S (ws_run r) else O
  | [] => O
  end.

(** The pattern anchored at the start of [s]: the length of the match.
    The first alternative wins on a tab (one character); otherwise the
    greedy [\s{2,}] takes the whole run, when it has two characters. *)
Definition match_at (s : jsstring) : option nat :=
  match s with
  | c :: _ =>
      if c =? TAB then Some 1%nat
      else if (2 <=? ws_run s)%nat then Some (ws_run s)
      else None
  | [] => None
  end.

(** [s.match(/\t|\s{2,}/)] as a truth value: a match at some position. *)
Fixpoint test (s : jsstring) : bool :=
  match s with
  | [] => false
  | _ :: r => if match_at s is Some _ then true else test r
  end.

(** [s.split(/\t|\s{2,}/)]: the scan of RegExp.prototype[Symbol.split].
    [cur] is the piece since the last separator (reversed), [skip] the
    number of characters of the current separator still to pass, that is
    e - q of the specification's loop. *)
Fixpoint split_go (s : jsstring) (skip : nat) (cur : jsstring)
  : list jsstring :=
  match s with
  | [] => [rev cur]
  | c :: r =>
      match skip with
      | S k => split_go r k cur
      | O =>
          match match_at s with
          | Some n => rev cur :: split_go r (pred n) []
          | None => split_go r O (c :: cur)
          end
      end
  end.

Definition split (s : jsstring) : list jsstring := split_go s O [].

End Sep.

(** ** Numbers and [StringToNumber] *)

(** A Number value as the mathematical value of the literal it was read
    from, (-1)^negative * mantissa * 10^exp10, before the rounding to an
    IEEE double, which is not modelled. *)
Inductive number :=
| NaN
| Finite (negative : bool) (mantissa : N) (exp10 : Z)
| Infinity (negative : bool).

Module Num.
Import JS.

Definition is_digit (c : N) : bool := (48 <=? c) && (c <=? 57).
Definition is_bin (c : N) : bool := (48 <=? c) && (c <=? 49).
Definition is_oct (c : N) : bool := (48 <=? c) && (c <=? 55).
Definition is_hex (c : N) : bool :=
  is_digit c || ((97 <=? c) && (c <=? 102)) || ((65 <=? c) && (c <=? 70)).

Definition digit_val (c : N) : N :=
  if is_digit c then c - 48
  else if (97 <=? c) then c - 87
  else c - 55.

Definition radix_value (base : N) (ds : jsstring) : N :=
  fold_left (fun acc c => base * acc + digit_val c) ds 0.

(** ExponentPart_opt at the end of the literal: nothing, or [e]/[E], an
    optional sign and at least one digit. *)
Definition SignedInteger (s : jsstring) : option Z :=
  let '(neg, ds) :=
    match s with
    | c :: r => if c =? 43 then (false, r)
                else if c =? 45 then (true, r) else (false, s)
    | [] => (false, s)
    end in
  if negb (is_empty ds) && forallb is_digit ds
  then Some (if neg then - Z.of_N (radix_value 10 ds)
             else Z.of_N (radix_value 10 ds))%Z
  else None.

Definition ExponentPart_opt (s : jsstring) : option Z :=
  match s with
  | [] => Some 0%Z
  | c :: r => if (c =? 101) || (c =? 69) then SignedInteger r else None
  end.

(** StrUnsignedDecimalLiteral: [Infinity], or digits with an optional
    point and an optional exponent, at least one digit in the mantissa. *)
Definition StrUnsignedDecimalLiteral (neg : bool) (s : jsstring) : number :=
  if bool_decide (s = u16 "Infinity") then Infinity neg
  else
    let ip := take_while is_digit s in
    let r1 := drop_while is_digit s in
    let '(fp, r2) :=
      match r1 with
      | c :: r =>
          if c =? 46 then (take_while is_digit r, drop_while is_digit r)
          else ([], r1)
      | [] => ([], [])
      end in
    if is_empty (ip ++ fp) then NaN
    else match ExponentPart_opt r2 with
         | Some e =>
             Finite neg (radix_value 10 (ip ++ fp)) (e - Z.of_nat (length fp))
         | None => NaN
         end.

Definition StrDecimalLiteral (s : jsstring) : number :=
  match s with
  | c :: r =>
      if c =? 43 then StrUnsignedDecimalLiteral false r
      else if c =? 45 then StrUnsignedDecimalLiteral true r
      else StrUnsignedDecimalLiteral false s
  | [] => NaN
  end.

Definition radix_literal (base : N) (ok : N -> bool) (ds : jsstring)
  : option number :=
  if negb (is_empty ds) && forallb ok ds
  then Some (Finite false (radix_value base ds) 0)
  else Some NaN.

(** NonDecimalIntegerLiteral: [0x], [0o], [0b] and their upper-case
    forms; [None] when the string has no such prefix. *)
Definition NonDecimalIntegerLiteral (s : jsstring) : option number :=
  match s with
  | z :: p :: ds =>
      if negb (z =? 48) then None
      else if (p =? 120) || (p =? 88) then radix_literal 16 is_hex ds
      else if (p =? 111) || (p =? 79) then radix_literal 8 is_oct ds
      else if (p =? 98) || (p =? 66) then radix_literal 2 is_bin ds
      else None
  | _ => None
  end.

Definition StrNumericLiteral (s : jsstring) : number :=
  match NonDecimalIntegerLiteral s with
  | Some n => n
  | None => StrDecimalLiteral s
  end.

(** [Number(s)] on a string: surrounding white space is ignored and the
    empty string is +0. *)
Definition StringToNumber (s : jsstring) : number :=
  match trim s with
  | [] => Finite false 0 0
  | t => StrNumericLiteral t
  end.

(** The global [isNaN] on a string argument. *)
Definition isNaN (s : jsstring) : bool :=
  match StringToNumber s with NaN => true | _ => false end.

End Num.

(** ** Values, errors and the store *)

(** A cell of [values]: [Array<string|number>]. *)
Inductive cell :=
| CNum (n : number)
| CStr (s : jsstring).

Record table := { headers : list jsstring; values : list (list cell) }.

(** What a [throw] carries: an [Error] with its message, a [TypeError]
    raised by the runtime, or a failure of an external call. *)
Inductive exn :=
| Error (message : jsstring)
| TypeError
| ENOENT (path : jsstring)
| External.

Inductive outcome (A : Type) :=
| Returned (a : A)
| Thrown (e : exn).
Arguments Returned {A} a.
Arguments Thrown {A} e.

(** The part of the world the handlers act on: the files (by resolved
    path), the directories made by [mkdir], and the requests posted to the
    language-model API. *)
Record world := {
  files : gmap jsstring jsstring;
  dirs : gset jsstring;
  posts : list jsstring
}.

(** Promise-returning code: a computation over the world that returns or
    throws. *)
Definition M (A : Type) : Type := world -> outcome A * world.

Definition ret {A} (a : A) : M A := fun w => (Returned a, w).
Definition throw {A} (e : exn) : M A := fun w => (Thrown e, w).
Definition bind {A B} (m : M A) (k : A -> M B) : M B :=
  fun w => match m w with
           | (Returned a, w') => k a w'
           | (Thrown e, w') => (Thrown e, w')
           end.
Definition lift {A} (o : outcome A) : M A := fun w => (o, w).

Notation "'await' x <- m ; k" := (bind m (fun x => k))
  (at level 10, x name, m at level 100, k at level 200).

Module Fs.

Definition readFile (p : jsstring) : M jsstring :=
  fun w => match files w !! p with
           | Some c => (Returned c, w)
           | None => (Thrown (ENOENT p), w)
           end.

(** [fs.mkdir(dir, { recursive: true })]: no error when [dir] exists. *)
Definition mkdir (p : jsstring) : M unit :=
  fun w => (Returned tt,
            {| files := files w; dirs := {[p]} ∪ dirs w; posts := posts w |}).

(** [fs.writeFile(p, c)]: creates or replaces the file. *)
Definition writeFile (p : jsstring) (c : jsstring) : M unit :=
  fun w => (Returned tt,
            {| files := <[p := c]> (files w); dirs := dirs w;
               posts := posts w |}).

End Fs.

(** ** [backend/utils/pdfDashboard.js]: the text part of [extractTable] *)

Module Extract.
Import JS.

Definition NO_TABLE : jsstring :=
  u16 "No table-like data found in the PDF or insufficient rows for a table.".
Definition NO_ROWS : jsstring :=
  u16 "Table headers found, but no valid data rows match the header count.".

(** [line => line.trim().length > 0 && line.match(/\t|\s{2,}/)] *)
Definition qualifies (line : jsstring) : bool :=
  (0 <? length (trim line))%nat && Sep.test line.

(** [data.text.split('\n').filter(...)] *)
Definition table_lines (text : jsstring) : list jsstring :=
  List.filter qualifies (split_char 10 text).

(** [line.trim().split(/\t|\s{2,}/).filter(cell => cell.trim() !== '')] *)
Definition cells (line : jsstring) : list jsstring :=
  List.filter (fun cell => negb (is_empty (trim cell))) (Sep.split (trim line)).

(** [!isNaN(trimmed) && trimmed !== '' ? Number(trimmed) : trimmed] *)
Definition coerce (value : jsstring) : cell :=
  let trimmed := trim value in
  if negb (Num.isNaN trimmed) && negb (is_empty trimmed)
  then CNum (Num.StringToNumber trimmed)
  else CStr trimmed.

(** [rows.slice(1).filter(row => row.length === headers.length)] *)
Definition matching_rows (hs : list jsstring) (rows : list (list jsstring))
  : list (list jsstring) :=
  List.filter (fun row => (length row =? length hs)%nat) (tl rows).

Definition parseTable (text : jsstring) : outcome table :=
  let lines := table_lines text in
  if (length lines <? 2)%nat then Thrown (Error NO_TABLE)
  else
    let rows := List.map cells lines in
    let hs := List.map trim (hd [] rows) in
    let vs := List.map (List.map coerce) (matching_rows hs rows) in
    if (length vs =? 0)%nat then Thrown (Error NO_ROWS)
    else Returned {| headers := hs; values := vs |}.

End Extract.

(** ** Markup literals *)

(** A markup literal of the source; [~] stands for the double quote, which
    no literal of the source contains otherwise. *)
Definition html (s : string) : jsstring :=
  List.map (fun a => if Ascii.eqb a "~"%char then 34 else N_of_ascii a)
           (list_ascii_of_string s).
Arguments html s%_string.

(** The lines of a template literal, each preceded by its line break. *)
Definition nl_lines (ls : list string) : jsstring :=
  concat (List.map (fun l => 10 :: html l) ls).

(** The fixed lines of the template literal of [generateHTML], in order. *)
Module Template.
Local Open Scope string_scope.

Definition PAGE_HEAD : list string := [
    "    <!DOCTYPE html>";
    "    <html>";
    "      <head>";
    "        <meta charset=~UTF-8~>";
    "        <meta name=~viewport~ content=~width=device-width, initial-scale=1.0~>";
    "        <title>Dashboard</title>";
    "        <link href=~https://cdn.tailwindcss.com~ rel=~stylesheet~>";
    "        <link href=~https://fonts.googleapis.com/css2?family=Inter:wght@400;600;700&display=swap~ rel=~stylesheet~>";
    "        <style>";
    "          body { font-family: 'Inter', sans-serif; background-color: #f0f4f8; margin: 0; padding: 20px; }";
    "          .container { max-width: 900px; margin: 20px auto; background-color: #ffffff; padding: 30px; border-radius: 12px; box-shadow: 0 4px 12px rgba(0, 0, 0, 0.1); }";
    "          h1 { font-size: 2.5rem; color: #4338ca; text-align: center; margin-bottom: 25px; font-weight: 700; }";
    "          table { border-collapse: collapse; width: 100%; margin-top: 20px; border-radius: 8px; overflow: hidden; }";
    "          th, td { border: 1px solid #e2e8f0; padding: 12px 15px; text-align: left; }";
    "          th { background-color: #e0f2fe; color: #1e3a8a; font-weight: 600; text-transform: uppercase; font-size: 0.85rem; }";
    "          tr:nth-child(even) { background-color: #f8fafc; }";
    "          tr:hover { background-color: #eef2ff; }";
    "          td { color: #334155; font-size: 0.9rem; }";
    "        </style>";
    "      </head>";
    "      <body>";
    "        <div class=~container~>" ].

Definition TABLE_OPEN : list string := [
    "          <div class=~overflow-x-auto rounded-lg shadow-md~>";
    "            <table>";
    "              <thead>" ].

Definition TABLE_BODY : list string := [
    "              </thead>";
    "              <tbody>" ].

Definition PAGE_TAIL : list string := [
    "              </tbody>";
    "            </table>";
    "          </div>";
    "        </div>";
    "      </body>";
    "    </html>";
    "  " ].

End Template.

(** ** [backend/utils/pdfDashboard.js]: rendering and saving *)

Section Dashboard.

(** The runtime's Number::toString, which depends on the rounding to a
    double, the text extractor [pdf-parse], Node's [path.join] and
    [path.basename], and the module's [__dirname]. *)
Variable Number_toString : number -> jsstring.
Variable pdfParse : jsstring -> outcome jsstring.
Variable path_join : jsstring -> jsstring -> jsstring.
Variable path_basename : jsstring -> option jsstring -> jsstring.
Variable utils_dirname : jsstring.

(** Template interpolation of a cell. The source's guard
    [typeof cell === 'object' && cell !== null] is false on both kinds of
    cell, so the cell itself is interpolated. *)
Definition cell_text (c : cell) : jsstring :=
  match c with
  | CNum n => Number_toString n
  | CStr s => s
  end.

Definition tableHeader (hs : list jsstring) : jsstring :=
  html "<tr>"
  ++ concat (List.map (fun header => html "<th>" ++ header ++ html "</th>") hs)
  ++ html "</tr>".

Definition tableRows (vs : list (list cell)) : jsstring :=
  concat (List.map (fun row =>
    html "<tr>"
    ++ concat (List.map (fun c => html "<td>" ++ cell_text c ++ html "</td>") row)
    ++ html "</tr>") vs).

Definition generateHTML (hs : list jsstring) (vs : list (list cell))
  : jsstring :=
  nl_lines Template.PAGE_HEAD
  ++ 10 :: html "          <h1>" ++ [55357; 56522]
  ++ html " PDF Table Dashboard</h1>"
  ++ nl_lines Template.TABLE_OPEN
  ++ 10 :: html "                " ++ tableHeader hs
  ++ nl_lines Template.TABLE_BODY
  ++ 10 :: html "                " ++ tableRows vs
  ++ nl_lines Template.PAGE_TAIL.

Definition extractTable (filePath : jsstring) : M table :=
  await buffer <- Fs.readFile filePath;
  await text <- lift (pdfParse buffer);
  lift (Extract.parseTable text).

Definition saveHTMLToFile (htmlContent filename : jsstring) : M jsstring :=
  let dashboardDir := path_join utils_dirname (u16 "../../dashboards") in
  await _u <- Fs.mkdir dashboardDir;
  let outputPath := path_join dashboardDir (filename ++ u16 ".html") in
  await _v <- Fs.writeFile outputPath htmlContent;
  ret outputPath.

Definition pdfTableToHTMLDashboard (filePath : jsstring) : M jsstring :=
  await t <- extractTable filePath;
  let html := generateHTML (headers t) (values t) in
  await htmlFile <-
    saveHTMLToFile html (path_basename filePath (Some (u16 ".pdf")));
  ret htmlFile.

End Dashboard.

(** ** [backend/server.js] *)

(** A field of the parsed JSON body; an absent field ([undefined]) is
    [None]. Arrays and objects are not told apart. *)
Inductive json :=
| JNull
| JBool (b : bool)
| JNumber (n : number)
| JString (s : jsstring)
| JObject.

(** Whether m * 10^e is a zero once rounded to a double: it is zero, or it
    is at most 2^-1075, half of the least positive double 2^-1074 (the tie
    goes to the even neighbour, which is zero). *)
Definition rounds_to_zero (m : N) (e : Z) : bool :=
  (m =? 0) || ((e <? 0)%Z && (m * 2 ^ 1075 <=? 10 ^ Z.to_N (- e))).

(** ToBoolean, as the guards [!prompt] and [!savedname] apply it; a number
    is falsy when its double is a zero. *)
Definition truthy (v : option json) : bool :=
  match v with
  | None | Some JNull => false
  | Some (JBool b) => b
  | Some (JNumber (Finite _ m e)) => negb (rounds_to_zero m e)
  | Some (JNumber NaN) => false
  | Some (JNumber (Infinity _)) => true
  | Some (JString s) => negb (JS.is_empty s)
  | Some JObject => true
  end.

Inductive payload :=
| ErrorBody (error : jsstring) (details : option exn)
| ComparisonUrl (comparisonUrl : jsstring)
| DashboardUrl (dashboardUrl : jsstring)
| Answer (answer : option jsstring).

Record response := { status : nat; body : payload }.

(** [res.json(b)] and [res.status(n).json(b)]. *)
Definition json_ok (b : payload) : response := {| status := 200; body := b |}.
Definition json_status (n : nat) (b : payload) : response :=
  {| status := n; body := b |}.

(** [try { ... } catch (e) { ... }] around a handler body. *)
Definition try_catch (m : M response) (handler : exn -> response)
  : world -> response * world :=
  fun w => match m w with
           | (Returned r, w') => (r, w')
           | (Thrown e, w') => (handler e, w')
           end.

(** Number::toString on an integer time value: its decimal digits, with a
    minus sign below zero (time values stay far below 10^21, where the
    notation would change). *)
Definition Integer_toString (z : Z) : jsstring :=
  u16 (NilZero.string_of_int (Z.to_int z)).

Module Escape.
Import JS.

Definition AMP : N := 38.
Definition LT : N := 60.
Definition GT : N := 62.
Definition QUOT : N := 34.
Definition APOS : N := 39.

Definition escapeHtml (str : jsstring) : jsstring :=
  replace_all APOS (u16 "&#39;")
    (replace_all QUOT (u16 "&quot;")
      (replace_all GT (u16 "&gt;")
        (replace_all LT (u16 "&lt;")
          (replace_all AMP (u16 "&amp;") str)))).

(** The call [escapeHtml(prompt)] on a truthy body field: a value that is
    not a string has no [replace] method. *)
Definition escapeHtml_field (v : option json) : outcome jsstring :=
  match v with
  | Some (JString s) => Returned (escapeHtml s)
  | None => Returned (escapeHtml [])
  | Some _ => Thrown TypeError
  end.

End Escape.

Section Server.

Variable Number_toString : number -> jsstring.
Variable pdfParse : jsstring -> outcome jsstring.
Variable path_join : jsstring -> jsstring -> jsstring.
Variable path_basename : jsstring -> option jsstring -> jsstring.
Variable server_dirname : jsstring.
Variable utils_dirname : jsstring.
(** The language-model service behind [axios.post]: from the URL and the
    request text to the answer text, when the reply has one. *)
Variable gemini : jsstring -> jsstring -> outcome (option jsstring).

Definition uploadsDir : jsstring := path_join server_dirname (u16 "uploads").
Definition dashboardsDir : jsstring :=
  path_join server_dirname (u16 "../dashboards").

(** [axios.post(url, ...)] *)
Definition axios_post (url text : jsstring) : M (option jsstring) :=
  fun w => (gemini url text,
            {| files := files w; dirs := dirs w; posts := posts w ++ [url] |}).

(** [/ask], for string-valued [question] and [pdfText]. *)
Definition ask (API_KEY : option jsstring) (question pdfText : jsstring)
  : world -> response * world :=
  try_catch
    (if negb (truthy (JString <$> API_KEY))
     then ret (json_status 400
                 (ErrorBody (u16 "Missing GEMINI_API_KEY on server") None))
     else
       let url :=
         u16 "https://generativelanguage.googleapis.com/v1beta/models/gemini-1.5-flash:generateContent?key="
         ++ default [] API_KEY in
       await answer <-
         axios_post url (u16 "Context:" ++ 10 :: pdfText ++ [10; 10]
                         ++ u16 "Question: " ++ question);
       ret (json_ok (Answer answer)))
    (fun e => json_status 500 (ErrorBody (u16 "Gemini Request Failed") (Some e))).

(** The template literal of [/compare-html]: its text before the heading,
    then the heading and the preformatted block around the escaped
    prompt. *)
Definition COMPARISON_HEAD : jsstring :=
  html "<!DOCTYPE html>"
  ++ nl_lines [
    "    <html><head><meta charset=~UTF-8~><title>Comparison</title>"%string;
    "    <style>body{font-family:Arial,sans-serif;margin:20px;line-height:1.5;}pre{white-space:pre-wrap;}</style>"%string ]
  ++ 10 :: html "    </head><body>".

Definition comparison_document (escaped : jsstring) : jsstring :=
  COMPARISON_HEAD ++ html "<h1>Document Comparison</h1><pre>"
  ++ escaped ++ html "</pre></body></html>".

Definition compare_filename (now : Z) : jsstring :=
  u16 "compare-" ++ Integer_toString now ++ u16 ".html".

(** [/compare-html]; [now] is the reading of [Date.now()]. *)
Definition compare_html (prompt : option json) (now : Z)
  : world -> response * world :=
  try_catch
    (if negb (truthy prompt)
     then ret (json_status 400 (ErrorBody (u16 "Missing prompt") None))
     else
       await escaped <- lift (Escape.escapeHtml_field prompt);
       let html := comparison_document escaped in
       let filename := compare_filename now in
       let outPath := path_join dashboardsDir filename in
       await _u <- Fs.writeFile outPath html;
       ret (json_ok (ComparisonUrl (u16 "/dashboards/" ++ filename))))
    (fun e => json_status 500
                (ErrorBody (u16 "Failed to generate comparison HTML") (Some e))).

(** [path.join(uploadsDir, savedname)] throws on a non-string argument. *)
Definition join_field (dir : jsstring) (v : option json) : outcome jsstring :=
  match v with
  | Some (JString s) => Returned (path_join dir s)
  | _ => Thrown TypeError
  end.

(** [/dashboard] *)
Definition dashboard (savedname : option json) : world -> response * world :=
  try_catch
    (if negb (truthy savedname)
     then ret (json_status 400 (ErrorBody (u16 "Missing savedname") None))
     else
       await pdfPath <- lift (join_field uploadsDir savedname);
       await htmlPath <-
         pdfTableToHTMLDashboard Number_toString pdfParse path_join
           path_basename utils_dirname pdfPath;
       let dashboardUrl := u16 "/dashboards/" ++ path_basename htmlPath None in
       ret (json_ok (DashboardUrl dashboardUrl)))
    (fun e => json_status 500
                (ErrorBody (u16 "Failed to generate dashboard") (Some e))).

End Server.


(** ** The specification's wording, for comparison *)

Module Spec.
Import JS.

(** "contains either a tab character or a run of 2-or-more consecutive
    space characters", on a line that is not blank. *)
Fixpoint has_space_pair (s : jsstring) : bool :=
  match s with
  | a :: (b :: _) as r => ((a =? 32) && (b =? 32)) || has_space_pair r
  | _ => false
  end.

Definition qualifies (line : jsstring) : bool :=
  negb (is_empty (trim line))
  && (existsb (N.eqb 9) line || has_space_pair line).

(** "optional leading sign, digits, at most one decimal point, no other
    characters", with at least one digit. *)
Definition unsigned_part (t : jsstring) : jsstring :=
  match t with
  | c :: r => if (c =? 43) || (c =? 45) then r else t
  | [] => t
  end.

Definition strict_numeric (t : jsstring) : bool :=
  let b := unsigned_part t in
  forallb (fun c => Num.is_digit c || (c =? 46)) b
  && Nat.leb (count_occ N.eq_dec b 46) 1
  && existsb Num.is_digit b.

End Spec.

(** The five entities of [escapeHtml], and the check that every ampersand
    of a string starts one of them. *)
Module Entities.

Definition ALL : list jsstring :=
  [u16 "&amp;"; u16 "&lt;"; u16 "&gt;"; u16 "&quot;"; u16 "&#39;"].

Fixpoint prefixb (e s : jsstring) : bool :=
  match e, s with
  | [], _ => true
  | x :: e', y :: s' => (x =? y) && prefixb e' s'
  | _ :: _, [] => false
  end.

Fixpoint amps_begin_entities (s : jsstring) : bool :=
  match s with
  | [] => true
  | c :: r =>
      (if c =? Escape.AMP then existsb (fun e => prefixb e s) ALL else true)
      && amps_begin_entities r
  end.

Definition markup_free (c : N) : bool :=
  negb ((c =? Escape.LT) || (c =? Escape.GT) || (c =? Escape.QUOT)
        || (c =? Escape.APOS)).

End Entities.

(** Two adjacent whitespace characters somewhere in [s]. *)
Fixpoint has_ws_pair (s : jsstring) : bool :=
  match s with
  | a :: (b :: _) as r => (JS.is_ws a && JS.is_ws b) || has_ws_pair r
  | _ => false
  end.

(** A plain reading of [path.join] and [path.basename], for evaluating the
    handlers on concrete requests: a directory and a file name joined by
    the separator, and the part after the last separator. *)
Module PlainPath.

Definition join (dir name : jsstring) : jsstring := dir ++ 47 :: name.

(** The part of [p] after its last separator, without the extension [ext]
    when it ends in it and is longer. *)
Fixpoint last_segment (p acc : jsstring) : jsstring :=
  match p with
  | [] => rev acc
  | c :: r => if c =? 47 then last_segment r [] else last_segment r (c :: acc)
  end.

Definition strip_ext (ext name : jsstring) : jsstring :=
  let n := (length name - length ext)%nat in
  if bool_decide (drop n name = ext) && (0 <? n)%nat then take n name else name.

Definition basename (p : jsstring) (ext : option jsstring) : jsstring :=
  match ext with
  | Some e => strip_ext e (last_segment p [])
  | None => last_segment p []
  end.

End PlainPath.

(** The characters of the strict grammar after the sign. *)
Definition digit_or_point (c : N) : bool := Num.is_digit c || (c =? 46).

(** What [escapeHtml] makes of one character. *)
Definition escape_char (c : N) : jsstring :=
  if c =? Escape.AMP then u16 "&amp;"
  else if c =? Escape.LT then u16 "&lt;"
  else if c =? Escape.GT then u16 "&gt;"
  else if c =? Escape.QUOT then u16 "&quot;"
  else if c =? Escape.APOS then u16 "&#39;"
  else [c].

(** The characters that [escapeHtml] replaces. *)
Definition special (c : N) : bool :=
  (c =? Escape.AMP) || (c =? Escape.LT) || (c =? Escape.GT)
  || (c =? Escape.QUOT) || (c =? Escape.APOS).

(** Whether a string ends in a whitespace character. *)
Fixpoint ends_ws (l : jsstring) : bool :=
  match l with
  | [] => false
  | [x] => JS.is_ws x
  | _ :: r => ends_ws r
  end.

(** A piece under construction: no tab, no two adjacent whitespace
    characters, and a whitespace at its end is not followed by another. *)
Definition piece_ok (pre s : jsstring) : Prop :=
  existsb (N.eqb 9) pre = false
  /\ has_ws_pair pre = false
  /\ (ends_ws pre = true ->
      match s with x :: _ => JS.is_ws x = false | [] => True end).

(** What a cell of the table can be. *)
Definition cell_ok (c : cell) : Prop :=
  match c with
  | CNum n => n <> NaN
  | CStr s => s <> [] /\ JS.trim s = s /\ Num.StringToNumber s = NaN
  end.

(** ** [backend/index.js]: the callback of the single-file [/upload] *)

Inductive upload_body :=
| TextBody (text : jsstring)
| UploadFailed (error : jsstring).

Section Index.

Variable pdfParse : jsstring -> outcome jsstring.

(** The callback of the route, run after the middleware [upload.single]
    has stored the upload: the world [w] it starts from already holds the
    stored file. [file] is the path of [req.file], absent when the request
    has no [pdf] part: reading [.path] of [undefined] throws inside the
    [try]. A failure of the middleware itself does not reach the
    callback. *)
Definition upload_single (file : option jsstring)
  : world -> (nat * upload_body) * world :=
  fun w =>
    match (await path <- lift (match file with
                               | Some p => Returned p
                               | None => Thrown TypeError
                               end);
           await buffer <- Fs.readFile path;
           await text <- lift (pdfParse buffer);
           ret (200%nat, TextBody text)) w with
    | (Returned r, w') => (r, w')
    | (Thrown _, w') =>
        ((500%nat, UploadFailed (u16 "Failed to process PDF")), w')
    end.

End Index.

(** ** [frontend/src/App.jsx]: the request of [handleComparePDFs] *)

(** [pieces.join(sep)] *)
Fixpoint js_join (sep : jsstring) (pieces : list jsstring) : jsstring :=
  match pieces with
  | [] => []
  | [x] => x
  | x :: rest => x ++ sep ++ js_join sep rest
  end.

Module App.

(** An entry of [allPdfData], with string [filename] and [text] as the
    server sends them; [error] is the truth value of its [error] field. *)
Record pdf := { filename : jsstring; text : jsstring; error : bool }.

(** [allPdfData.filter(pdf => !pdf.error)] *)
Definition successfullyProcessedPdfs (allPdfData : list pdf) : list pdf :=
  List.filter (fun pdf => negb (error pdf)) allPdfData.

Definition document_block (index : nat) (pdf : pdf) : jsstring :=
  u16 "--- Document " ++ Integer_toString (Z.of_nat index + 1) ++ u16 ": "
  ++ filename pdf ++ u16 " ---" ++ 10 :: text pdf.

Definition comparisonPrompt (pdfs : list pdf) : jsstring :=
  u16 "Compare the following documents and highlight key similarities and differences."
  ++ 10 :: u16 "    "
  ++ 10 :: u16 "    " ++ js_join [10; 10] (imap document_block pdfs).

(** The [prompt] field that [handleComparePDFs] posts to [/compare-html];
    [None] when it returns early with fewer than two valid documents. *)
Definition handleComparePDFs (allPdfData : list pdf) : option jsstring :=
  let pdfs := successfullyProcessedPdfs allPdfData in
  if (length pdfs <? 2)%nat then None else Some (comparisonPrompt pdfs).

End App.

(** * Evaluation checks *)

Example num1 : Num.StringToNumber (u16 "90") = Finite false 90 0.
Proof. reflexivity. Qed.

Example num2 : Num.StringToNumber (u16 "-1.50e3") = Finite true 150 1.
Proof. reflexivity. Qed.

Example num3 : Num.StringToNumber (u16 "0x1F") = Finite false 31 0.
Proof. reflexivity. Qed.

Example num4 : Num.StringToNumber (u16 "-") = NaN.
Proof. reflexivity. Qed.

Example num5 : Num.StringToNumber (u16 ".") = NaN.
Proof. reflexivity. Qed.

Example num6 : Num.StringToNumber (u16 "-Infinity") = Infinity true.
Proof. reflexivity. Qed.

Example num7 : Num.StringToNumber (u16 "1e") = NaN.
Proof. reflexivity. Qed.

Example num8 : Num.StringToNumber (u16 "5.") = Finite false 5 0.
Proof. reflexivity. Qed.

Example num9 : Num.StringToNumber (u16 "-0x10") = NaN.
Proof. reflexivity. Qed.

Example scenario3 :
  Extract.parseTable (u16 "A  B" ++ [10] ++ u16 "1  2" ++ [10] ++ u16 "3  4  5")
  = Returned {| headers := [u16 "A"; u16 "B"];
                values := [[CNum (Finite false 1 0); CNum (Finite false 2 0)]] |}.
Proof. vm_compute. reflexivity. Qed.

Example int_str0 : Integer_toString 0 = u16 "0".
Proof. reflexivity. Qed.

Example int_str1 : Integer_toString 1700000000123 = u16 "1700000000123".
Proof. reflexivity. Qed.

Example int_str2 : Integer_toString (-42) = u16 "-42".
Proof. reflexivity. Qed.

Example esc1 : Escape.escapeHtml (u16 "a<b & 'c'") = u16 "a&lt;b &amp; &#39;c&#39;".
Proof. reflexivity. Qed.

(** * The table heuristic parser *)

Section ParserFacts.
Import JS.

Lemma trim_nil : trim [] = [].
Proof. reflexivity. Qed.

Lemma nonblank_nonempty (s : jsstring) :
  is_empty (trim s) = false -> s <> [].
Proof. intros H ->. discriminate H. Qed.

Lemma filter_length_Forall {A} (n : nat) (l : list (list A)) :
  Forall (fun row => length row = n)
         (List.filter (fun row => (length row =? n)%nat) l).
Proof.
  induction l as [|row l IH]; simpl; [constructor|].
  destruct (Nat.eqb_spec (length row) n); [constructor|]; assumption.
Qed.

(** What [parseTable] returns, read off its two guards. *)
Lemma parseTable_Returned (text : jsstring) (t : table) :
  Extract.parseTable text = Returned t ->
  (2 <= length (Extract.table_lines text))%nat
  /\ headers t
     = List.map trim (hd [] (List.map Extract.cells (Extract.table_lines text)))
  /\ values t
     = List.map (List.map Extract.coerce)
         (Extract.matching_rows (headers t)
            (List.map Extract.cells (Extract.table_lines text))).
Proof.
  unfold Extract.parseTable.
  destruct (Nat.ltb_spec (length (Extract.table_lines text)) 2); [discriminate|].
  cbv zeta.
  match goal with
  | |- context [Nat.eqb ?a 0] => destruct (Nat.eqb_spec a 0)
  end; [discriminate|].
  intros [= <-]; simpl. auto.
Qed.

End ParserFacts.

(** C5. On the text of scenario 1 the parser returns the headers Name and
    Score and the rows (Alice, 90) and (Bob, 85); the fourth line has no tab
    and no two adjacent whitespace characters, so it does not qualify and
    is not among the table lines. *)
Theorem parseTable_scenario1 :
  let text := u16 "Name" ++ 9 :: u16 "Score" ++ 10 :: u16 "Alice" ++ 9 :: u16 "90"
              ++ 10 :: u16 "Bob" ++ 9 :: u16 "85" ++ 10 :: u16 "not a table line" in
  Extract.parseTable text
  = Returned {| headers := [u16 "Name"; u16 "Score"];
                values := [[CStr (u16 "Alice"); CNum (Finite false 90 0)];
                           [CStr (u16 "Bob"); CNum (Finite false 85 0)]] |}
  /\ JS.split_char 10 text
     = [u16 "Name" ++ 9 :: u16 "Score"; u16 "Alice" ++ 9 :: u16 "90";
        u16 "Bob" ++ 9 :: u16 "85"; u16 "not a table line"]
  /\ Extract.qualifies (u16 "not a table line") = false
  /\ existsb (N.eqb 9) (u16 "not a table line") = false
  /\ Spec.has_space_pair (u16 "not a table line") = false
  /\ Extract.table_lines text
     = [u16 "Name" ++ 9 :: u16 "Score"; u16 "Alice" ++ 9 :: u16 "90";
        u16 "Bob" ++ 9 :: u16 "85"].
Proof. vm_compute. repeat split. Qed.

(** C9. Splitting a line into cells keeps no empty cell, wherever the
    separators stand: the cells are the pieces of the split whose trimmed
    text is not empty, so none of them is empty; the split of a, tab, tab, b
    has an empty piece between the two tabs and the line has exactly the
    cells a and b. *)
Theorem cells_drop_every_empty_cell :
  forall line : jsstring,
    Extract.cells line
    = List.filter (fun c => negb (JS.is_empty (JS.trim c))) (Sep.split (JS.trim line))
    /\ Forall (fun c => c <> [] /\ JS.trim c <> []) (Extract.cells line)
    /\ Sep.split (u16 "a" ++ [9; 9] ++ u16 "b") = [u16 "a"; []; u16 "b"]
    /\ Extract.cells (u16 "a" ++ [9; 9] ++ u16 "b") = [u16 "a"; u16 "b"].
Proof.
  intros line. split; [reflexivity|]. split; [|split; reflexivity].
  unfold Extract.cells. apply List.Forall_forall. intros c Hc.
  apply List.filter_In in Hc. destruct Hc as [_ Hc].
  apply negb_true_iff in Hc. split.
  - now apply nonblank_nonempty.
  - intros E. rewrite E in Hc. discriminate.
Qed.

(** C3. When the parser returns a table, every row has exactly as many
    cells as there are headers: the rows are the candidate rows (the cells
    of the table lines after the first) whose cell count equals the header
    count, each kept whole and in order, with its cells coerced one by one. *)
Theorem parseTable_rows_match_headers (text : jsstring) (t : table) :
  Extract.parseTable text = Returned t ->
  Forall (fun row => length row = length (headers t)) (values t)
  /\ values t
     = List.map (List.map Extract.coerce)
         (List.filter (fun row => (length row =? length (headers t))%nat)
            (tl (List.map Extract.cells (Extract.table_lines text)))).
Proof.
  intros H. apply parseTable_Returned in H. destruct H as (_ & _ & Hv).
  split; [|exact Hv].
  rewrite Hv. apply List.Forall_map.
  unfold Extract.matching_rows.
  eapply List.Forall_impl; [|apply filter_length_Forall].
  intros row Hrow. simpl in Hrow. now rewrite List.length_map.
Qed.

Lemma parseTable_rows_match_headers_witness :
  Forall (fun row => length row = 2%nat)
    [[CNum (Finite false 1 0); CNum (Finite false 2 0)]].
Proof.
  exact (proj1 (parseTable_rows_match_headers
    (u16 "A  B" ++ 10 :: u16 "1  2" ++ 10 :: u16 "3  4  5")
    {| headers := [u16 "A"; u16 "B"];
       values := [[CNum (Finite false 1 0); CNum (Finite false 2 0)]] |}
    eq_refl)).
Defined.

Section QualifyingLines.
Import JS.

Lemma ws_run_two (c : N) (r : jsstring) :
  (2 <=? Sep.ws_run (c :: r))%nat
  = is_ws c && match r with b :: _ => is_ws b | [] => false end.
Proof.
  simpl. destruct (is_ws c); [|reflexivity].
  destruct r as [|b r]; [reflexivity|]. simpl.
  destruct (is_ws b); reflexivity.
Qed.

(** The pattern matches somewhere in a line exactly when the line has a
    tab or two adjacent whitespace characters. *)
Lemma test_tab_or_ws_pair (s : jsstring) :
  Sep.test s = existsb (N.eqb 9) s || has_ws_pair s.
Proof.
  induction s as [|c r IH]; [reflexivity|].
  change (Sep.test (c :: r))
    with (if Sep.match_at (c :: r) is Some _ then true else Sep.test r).
  unfold Sep.match_at, Sep.TAB. rewrite ws_run_two.
  change (existsb (N.eqb 9) (c :: r)) with ((9 =? c) || existsb (N.eqb 9) r).
  rewrite (N.eqb_sym 9 c).
  destruct (c =? 9); [reflexivity|].
  rewrite IH. destruct r as [|b r]; simpl.
  - now rewrite andb_false_r.
  - destruct (is_ws c && is_ws b); simpl; [now rewrite orb_true_r | reflexivity].
Qed.

Lemma NO_TABLE_NO_ROWS : Extract.NO_TABLE <> Extract.NO_ROWS.
Proof. discriminate. Qed.

(** The three ways [parseTable] can end. *)
Lemma parseTable_cases (text : jsstring) :
  let lines := Extract.table_lines text in
  let rows := List.map Extract.cells lines in
  let hs := List.map trim (hd [] rows) in
  ((length lines < 2)%nat
   /\ Extract.parseTable text = Thrown (Error Extract.NO_TABLE))
  \/ ((2 <= length lines)%nat /\ Extract.matching_rows hs rows = []
      /\ Extract.parseTable text = Thrown (Error Extract.NO_ROWS))
  \/ ((2 <= length lines)%nat /\ Extract.matching_rows hs rows <> []
      /\ exists t, Extract.parseTable text = Returned t).
Proof.
  intros lines rows hs. unfold Extract.parseTable.
  fold lines. cbv zeta. fold rows. fold hs. rewrite List.length_map.
  destruct (Nat.ltb_spec (length lines) 2) as [Hlt|Hge]; [now left|].
  right. destruct (Extract.matching_rows hs rows) as [|row more]; simpl.
  - left. auto.
  - right. repeat split; [assumption|discriminate|eexists; reflexivity].
Qed.

End QualifyingLines.

Ltac settle_outcome :=
  repeat match goal with
         | |- _ <-> _ => split
         | |- _ /\ _ => split
         | |- _ -> _ => intro
         | |- _ <> _ => intro
         | H : _ /\ _ |- _ => destruct H
         | H : exists _, _ |- _ => destruct H
         | H : _ \/ _ |- _ => destruct H
         end;
  try congruence; try lia; eauto.

(** C2, as stated, fails. Two lines of prose that end in a space and a
    carriage return have no tab and no two adjacent space characters, so
    fewer than two lines qualify in the claim's sense; yet the pattern's
    whitespace class accepts the space followed by the carriage return and
    the parser returns a table. *)
Lemma parseTable_space_CR_lines_return :
  ~ (forall text : jsstring,
       (length (List.filter Spec.qualifies (JS.split_char 10 text)) < 2)%nat ->
       exists e, Extract.parseTable text = Thrown e).
Proof.
  intros H.
  destruct (H (u16 "ab " ++ [13; 10] ++ u16 "cd " ++ [13])) as [e He].
  - vm_compute. lia.
  - vm_compute in He. discriminate He.
Qed.

(** C2, amended. A line qualifies when it is not blank and has a tab or
    two adjacent whitespace characters (any of the pattern's whitespace
    class, not only the space). The parser throws exactly when fewer than
    two lines qualify or no candidate row has the header's cell count; the
    first case carries the no-table message, the second the distinct
    no-valid-data-rows message, and in every other case a table is
    returned. *)
Theorem parseTable_fails_exactly_when (text : jsstring) :
  let lines := Extract.table_lines text in
  let rows := List.map Extract.cells lines in
  let hs := List.map JS.trim (hd [] rows) in
  ((exists e, Extract.parseTable text = Thrown e)
   <-> (length lines < 2)%nat \/ Extract.matching_rows hs rows = [])
  /\ (Extract.parseTable text = Thrown (Error Extract.NO_TABLE)
      <-> (length lines < 2)%nat)
  /\ (Extract.parseTable text = Thrown (Error Extract.NO_ROWS)
      <-> (2 <= length lines)%nat /\ Extract.matching_rows hs rows = [])
  /\ ((exists t, Extract.parseTable text = Returned t)
      <-> (2 <= length lines)%nat /\ Extract.matching_rows hs rows <> [])
  /\ Extract.NO_TABLE <> Extract.NO_ROWS
  /\ (forall line : jsstring,
        Extract.qualifies line
        = negb (JS.is_empty (JS.trim line))
          && (existsb (N.eqb 9) line || has_ws_pair line)).
Proof.
  intros lines rows hs.
  assert (Hq : forall line : jsstring,
             Extract.qualifies line
             = negb (JS.is_empty (JS.trim line))
               && (existsb (N.eqb 9) line || has_ws_pair line)).
  { intros line. unfold Extract.qualifies. rewrite test_tab_or_ws_pair.
    destruct (JS.trim line); reflexivity. }
  pose proof NO_TABLE_NO_ROWS as Hne.
  destruct (parseTable_cases text) as [[H1 H2]|[(H1 & H2 & H3)|(H1 & H2 & t & H3)]];
    fold lines in H1; try fold lines rows hs in H2;
    repeat (split; [settle_outcome|]); try exact Hq; try exact Hne;
    settle_outcome.
Qed.

(** * Numeric coercion *)

Section Coercion.
Import JS.

Lemma take_drop_while (p : N -> bool) (s : jsstring) :
  s = take_while p s ++ drop_while p s.
Proof.
  induction s as [|c r IH]; [reflexivity|]; simpl.
  destruct (p c); [simpl; now f_equal | reflexivity].
Qed.

Lemma drop_while_head (p : N -> bool) (s : jsstring) (c : N) (r : jsstring) :
  drop_while p s = c :: r -> p c = false.
Proof.
  induction s as [|x s IH]; [discriminate|]; simpl.
  destruct (p x) eqn:E; [assumption|]. now intros [= <- _].
Qed.

Lemma drop_while_id (p : N -> bool) (s : jsstring) :
  match s with c :: _ => p c = false | [] => True end -> drop_while p s = s.
Proof. destruct s as [|c r]; [reflexivity|]; simpl. now intros ->. Qed.

(** A string none of whose characters is whitespace is its own trim. *)
Lemma trim_no_ws (s : jsstring) :
  forallb (fun c => negb (is_ws c)) s = true -> trim s = s.
Proof.
  intros H. unfold trim, trimStart, trimEnd.
  assert (Hall : forall l : jsstring,
             forallb (fun c => negb (is_ws c)) l = true -> drop_while is_ws l = l).
  { intros l Hl. apply drop_while_id. destruct l as [|c r]; [exact I|].
    simpl in Hl. apply andb_prop in Hl. now apply negb_true_iff. }
  rewrite (Hall s H). rewrite Hall; [apply List.rev_involutive|].
  apply List.forallb_forall. intros x Hx. apply List.in_rev in Hx.
  revert x Hx. now apply List.forallb_forall.
Qed.

Lemma digit_or_point_not_digit (c : N) :
  digit_or_point c = true -> Num.is_digit c = false -> c = 46.
Proof.
  unfold digit_or_point. intros H E. rewrite E in H. now apply N.eqb_eq.
Qed.

Lemma count_point_digits (ds : jsstring) :
  forallb Num.is_digit ds = true -> count_occ N.eq_dec ds 46 = 0%nat.
Proof.
  induction ds as [|d ds IH]; [reflexivity|]; simpl.
  intros H. apply andb_prop in H. destruct H as [Hd Hds].
  destruct (N.eq_dec d 46) as [->|_]; [discriminate Hd | now apply IH].
Qed.

Lemma take_while_all (p : N -> bool) (s : jsstring) :
  forallb p (take_while p s) = true.
Proof.
  induction s as [|c r IH]; [reflexivity|]; simpl.
  destruct (p c) eqn:E; [simpl; now rewrite E | reflexivity].
Qed.

(** The strict grammar's unsigned part is read as a finite number. *)
Lemma strict_unsigned_finite (neg : bool) (b : jsstring) :
  forallb digit_or_point b = true ->
  (count_occ N.eq_dec b 46%N <= 1)%nat ->
  existsb Num.is_digit b = true ->
  exists m e, Num.StrUnsignedDecimalLiteral neg b = Finite neg m e.
Proof.
  intros Hall Hcount Hdig. unfold Num.StrUnsignedDecimalLiteral.
  destruct (bool_decide_reflect (b = u16 "Infinity")) as [->|_];
    [discriminate Hall|].
  pose proof (take_drop_while Num.is_digit b) as Hsplit.
  pose proof (take_while_all Num.is_digit b) as Hip.
  set (ip := take_while Num.is_digit b) in *. clearbody ip.
  destruct (drop_while Num.is_digit b) as [|c r] eqn:Hr1.
  - rewrite List.app_nil_r in *. subst b.
    destruct ip as [|d ds]; [discriminate Hdig|]. simpl. eauto.
  - pose proof (drop_while_head _ _ _ _ Hr1) as Hc.
    rewrite Hsplit in Hall. rewrite List.forallb_app in Hall.
    apply andb_prop in Hall. destruct Hall as [_ Hall]. simpl in Hall.
    apply andb_prop in Hall. destruct Hall as [Hcp Hrest].
    pose proof (digit_or_point_not_digit c Hcp Hc) as ->. simpl.
    pose proof (take_drop_while Num.is_digit r) as Hsplit2.
    pose proof (take_while_all Num.is_digit r) as Hfp.
    set (fp := take_while Num.is_digit r) in *. clearbody fp.
    destruct (drop_while Num.is_digit r) as [|c2 r2] eqn:Hr2.
    + rewrite List.app_nil_r in Hsplit2. subst r.
      destruct (ip ++ fp) as [|d ds] eqn:Hm.
      * apply List.app_eq_nil in Hm. destruct Hm as [-> ->].
        subst b. discriminate Hdig.
      * simpl. eauto.
    + exfalso. pose proof (drop_while_head _ _ _ _ Hr2) as Hc2.
      rewrite Hsplit2 in Hrest. rewrite List.forallb_app in Hrest.
      apply andb_prop in Hrest. destruct Hrest as [_ Hrest]. simpl in Hrest.
      apply andb_prop in Hrest. destruct Hrest as [Hcp2 _].
      pose proof (digit_or_point_not_digit c2 Hcp2 Hc2) as ->.
      rewrite Hsplit, Hsplit2 in Hcount.
      rewrite List.count_occ_app in Hcount. simpl in Hcount.
      rewrite List.count_occ_app in Hcount. simpl in Hcount. lia.
Qed.

End Coercion.

Section StrictGrammar.
Import JS.

Lemma is_ws_range (c : N) :
  is_ws c = true -> c <= 13 \/ c = 32 \/ 160 <= c.
Proof.
  unfold is_ws.
  rewrite !orb_true_iff, !andb_true_iff, !N.leb_le, !N.eqb_eq. lia.
Qed.

Lemma digit_or_point_range (c : N) :
  digit_or_point c = true -> c = 46 \/ 48 <= c <= 57.
Proof.
  unfold digit_or_point, Num.is_digit.
  rewrite !orb_true_iff, !andb_true_iff, !N.leb_le, !N.eqb_eq. lia.
Qed.

Lemma digit_or_point_not_ws (c : N) :
  digit_or_point c = true -> negb (is_ws c) = true.
Proof.
  intros H. apply digit_or_point_range in H.
  destruct (is_ws c) eqn:E; [|reflexivity].
  apply is_ws_range in E. lia.
Qed.

Lemma sign_not_ws (c : N) :
  (c =? 43) || (c =? 45) = true -> negb (is_ws c) = true.
Proof.
  rewrite orb_true_iff, !N.eqb_eq. now intros [-> | ->].
Qed.

Lemma forallb_weaken (p q : N -> bool) (s : jsstring) :
  (forall c, p c = true -> q c = true) ->
  forallb p s = true -> forallb q s = true.
Proof.
  intros Hpq H. apply List.forallb_forall. intros c Hc. apply Hpq.
  revert c Hc. now apply List.forallb_forall.
Qed.

(** No string of the strict grammar starts a hexadecimal, octal or binary
    literal. *)
Lemma strict_not_prefixed (t : jsstring) :
  forallb digit_or_point (Spec.unsigned_part t) = true ->
  Num.NonDecimalIntegerLiteral t = None.
Proof.
  destruct t as [|z [|p ds]]; try reflexivity.
  unfold Num.NonDecimalIntegerLiteral.
  destruct (N.eqb_spec z 48) as [->|_]; [|reflexivity].
  simpl. intros H. apply andb_prop in H. destruct H as [H _].
  apply digit_or_point_range in H.
  repeat match goal with
         | |- context [N.eqb p ?k] => destruct (N.eqb_spec p k); [lia|]
         end.
  reflexivity.
Qed.

(** Every string of the strict grammar is read by [Number] as a finite
    number. *)
Lemma strict_numeric_finite (t : jsstring) :
  Spec.strict_numeric t = true ->
  t <> [] /\ trim t = t
  /\ exists neg m e, Num.StringToNumber t = Finite neg m e.
Proof.
  unfold Spec.strict_numeric. cbv zeta. intros H.
  apply andb_prop in H. destruct H as [H Hdig].
  apply andb_prop in H. destruct H as [Hall Hcount].
  apply Nat.leb_le in Hcount.
  change (fun c : N => Num.is_digit c || (c =? 46)) with digit_or_point in Hall.
  pose proof (strict_not_prefixed t Hall) as Hnd.
  destruct t as [|c r]; [discriminate Hdig|].
  assert (Htrim : trim (c :: r) = c :: r).
  { apply trim_no_ws. simpl in Hall |- *.
    destruct ((c =? 43) || (c =? 45)) eqn:Hs.
    - rewrite (sign_not_ws c Hs). simpl.
      revert Hall. apply forallb_weaken, digit_or_point_not_ws.
    - change (forallb (fun x => negb (is_ws x)) (c :: r) = true).
      revert Hall. apply forallb_weaken, digit_or_point_not_ws. }
  split; [discriminate|]. split; [exact Htrim|].
  unfold Num.StringToNumber. rewrite Htrim.
  unfold Num.StrNumericLiteral. rewrite Hnd.
  unfold Num.StrDecimalLiteral. simpl in Hall, Hcount, Hdig.
  destruct (c =? 43) eqn:Hplus; simpl in Hall, Hcount, Hdig.
  { exists false. now apply strict_unsigned_finite. }
  destruct (c =? 45) eqn:Hminus; simpl in Hall, Hcount, Hdig.
  { exists true. now apply strict_unsigned_finite. }
  exists false. now apply strict_unsigned_finite.
Qed.

End StrictGrammar.

(** C4, as stated, fails. The cell 1e5 is converted to a number, and so are
    0x1F and Infinity, though none of them is in the strict grammar of an
    optional sign, digits and at most one decimal point. *)
Lemma coerce_exponent_cell_is_numeric :
  ~ (forall value : jsstring,
       (exists n, Extract.coerce value = CNum n)
       <-> JS.trim value <> [] /\ Spec.strict_numeric (JS.trim value) = true).
Proof.
  intros H. destruct (H (u16 "1e5")) as [H1 _].
  destruct H1 as [_ H1]; [eexists; reflexivity|]. discriminate H1.
Qed.

(** C4, amended. A cell is converted to a number exactly when its trimmed
    text is not empty and [Number] does not read it as NaN; otherwise it is
    kept as the trimmed string. Every non-empty string of the strict
    grammar (optional sign, digits, at most one decimal point) is converted,
    to a finite number; the empty string, a lone minus sign and a lone
    point are kept as strings; and [Number] also accepts exponents,
    prefixed hexadecimal, octal and binary literals and Infinity, so 1e5,
    0x1F and Infinity are converted too. *)
Theorem coerce_numeric_exactly_when (value : jsstring) :
  ((exists n, Extract.coerce value = CNum n)
   <-> JS.trim value <> [] /\ Num.StringToNumber (JS.trim value) <> NaN)
  /\ (Extract.coerce value = CNum (Num.StringToNumber (JS.trim value))
      \/ Extract.coerce value = CStr (JS.trim value))
  /\ (Spec.strict_numeric (JS.trim value) = true ->
      exists neg m e, Extract.coerce value = CNum (Finite neg m e))
  /\ Extract.coerce [] = CStr []
  /\ Extract.coerce (u16 "-") = CStr (u16 "-")
  /\ Extract.coerce (u16 ".") = CStr (u16 ".")
  /\ Extract.coerce (u16 "1e5") = CNum (Finite false 1 5)
  /\ Extract.coerce (u16 "0x1F") = CNum (Finite false 31 0)
  /\ Extract.coerce (u16 "Infinity") = CNum (Infinity false).
Proof.
  split; [|split; [|split; [|repeat split]]].
  - unfold Extract.coerce, Num.isNaN. cbv zeta.
    destruct (JS.trim value) as [|c r] eqn:Ht.
    + simpl. split; [intros [n [=]] | intros [H _]; now destruct H].
    + destruct (Num.StringToNumber (c :: r)) eqn:Hn; simpl; split;
        solve [ intros [n' [=]]
              | intros [_ H]; now destruct H
              | intros _; split; discriminate
              | intros _; eexists; reflexivity ].
  - unfold Extract.coerce. cbv zeta.
    destruct (negb _ && negb _); [now left | now right].
  - intros Hs. apply strict_numeric_finite in Hs.
    destruct Hs as (Hne & _ & neg & m & e & Hn).
    exists neg, m, e. unfold Extract.coerce, Num.isNaN. cbv zeta.
    rewrite Hn. destruct (JS.trim value); [contradiction|reflexivity].
Qed.

Lemma coerce_numeric_exactly_when_witness :
  exists neg m e, Extract.coerce (u16 " -12.5 ") = CNum (Finite neg m e).
Proof.
  apply (proj1 (proj2 (proj2 (coerce_numeric_exactly_when (u16 " -12.5 "))))).
  reflexivity.
Defined.

(** * The escaper of the comparison path *)

Section EscapeFacts.
Import JS Escape.

Ltac by_character c :=
  unfold escape_char, AMP, LT, GT, QUOT, APOS;
  repeat match goal with
         | |- context [N.eqb c ?k] => destruct (N.eqb_spec c k); [subst c|]
         end.

Lemma replace_all_app (c : N) (by_ x y : jsstring) :
  replace_all c by_ (x ++ y) = replace_all c by_ x ++ replace_all c by_ y.
Proof. apply List.flat_map_app. Qed.

Lemma escapeHtml_app (x y : jsstring) :
  escapeHtml (x ++ y) = escapeHtml x ++ escapeHtml y.
Proof. unfold escapeHtml. now rewrite !replace_all_app. Qed.

Lemma escapeHtml_one (c : N) : escapeHtml [c] = escape_char c.
Proof.
  by_character c; try reflexivity.
  unfold escapeHtml, replace_all, AMP, LT, GT, QUOT, APOS. simpl.
  repeat match goal with
         | H : c <> ?k |- _ => apply N.eqb_neq in H; rewrite H; clear H; simpl
         end.
  reflexivity.
Qed.

(** The five replacements in sequence are one pass over the string. *)
Lemma escapeHtml_cons (c : N) (s : jsstring) :
  escapeHtml (c :: s) = escape_char c ++ escapeHtml s.
Proof.
  change (c :: s) with ([c] ++ s). now rewrite escapeHtml_app, escapeHtml_one.
Qed.

Lemma escapeHtml_flat_map (s : jsstring) :
  escapeHtml s = flat_map escape_char s.
Proof.
  induction s as [|c s IH]; [reflexivity|].
  rewrite escapeHtml_cons, IH. reflexivity.
Qed.

Lemma escape_char_markup_free (c : N) :
  forallb Entities.markup_free (escape_char c) = true.
Proof.
  by_character c; try reflexivity.
  unfold Entities.markup_free, LT, GT, QUOT, APOS. simpl.
  repeat match goal with
         | H : c <> ?k |- _ => apply N.eqb_neq in H; rewrite ?H; clear H
         end.
  reflexivity.
Qed.

Lemma escapeHtml_markup_free (s : jsstring) :
  forallb Entities.markup_free (escapeHtml s) = true.
Proof.
  induction s as [|c s IH]; [reflexivity|].
  rewrite escapeHtml_cons, List.forallb_app, escape_char_markup_free. exact IH.
Qed.

Lemma escape_char_amps (c : N) (rest : jsstring) :
  Entities.amps_begin_entities (escape_char c ++ rest)
  = Entities.amps_begin_entities rest.
Proof.
  by_character c; try reflexivity.
  simpl. unfold AMP. apply N.eqb_neq in n. now rewrite n.
Qed.

Lemma escapeHtml_amps (s : jsstring) :
  Entities.amps_begin_entities (escapeHtml s) = true.
Proof.
  induction s as [|c s IH]; [reflexivity|].
  now rewrite escapeHtml_cons, escape_char_amps.
Qed.

Lemma escape_char_app_nonnil (c : N) (x : jsstring) : escape_char c ++ x <> [].
Proof. by_character c; discriminate. Qed.

(** The images of the characters form a prefix code. *)
Lemma escape_char_app_inj (c c' : N) (x y : jsstring) :
  escape_char c ++ x = escape_char c' ++ y -> c = c' /\ x = y.
Proof.
  by_character c; by_character c'; simpl; intros H;
    inversion H; subst; try contradiction; auto.
Qed.

Lemma escapeHtml_inj (s s' : jsstring) :
  escapeHtml s = escapeHtml s' -> s = s'.
Proof.
  revert s'. induction s as [|c s IH]; intros [|c' s'].
  - reflexivity.
  - rewrite escapeHtml_cons. intros H. symmetry in H.
    now apply escape_char_app_nonnil in H.
  - rewrite escapeHtml_cons. intros H.
    now apply escape_char_app_nonnil in H.
  - rewrite !escapeHtml_cons. intros H.
    apply escape_char_app_inj in H. destruct H as [-> H].
    f_equal. now apply IH.
Qed.

Lemma prefixb_app (e s : jsstring) :
  Entities.prefixb e s = true -> exists rest, s = e ++ rest.
Proof.
  revert s. induction e as [|x e IH]; intros s; [now exists s|].
  destruct s as [|y s]; [discriminate|]. simpl. intros H.
  apply andb_prop in H. destruct H as [Hxy H].
  apply N.eqb_eq in Hxy. subst y.
  destruct (IH s H) as [rest ->]. now exists rest.
Qed.

Lemma amps_begin_entities_cons (c : N) (r : jsstring) :
  Entities.amps_begin_entities (c :: r)
  = (if c =? AMP
     then existsb (fun e => Entities.prefixb e (c :: r)) Entities.ALL
     else true)
    && Entities.amps_begin_entities r.
Proof. reflexivity. Qed.

(** The boolean check, as a statement about every occurrence. *)
Lemma amps_begin_entities_at (s pre post : jsstring) :
  Entities.amps_begin_entities s = true ->
  s = pre ++ AMP :: post ->
  exists e rest, In e Entities.ALL /\ AMP :: post = e ++ rest.
Proof.
  revert s. induction pre as [|x pre IH]; intros s Hs ->.
  - rewrite List.app_nil_l, amps_begin_entities_cons, N.eqb_refl in Hs.
    apply andb_prop in Hs. destruct Hs as [Hs _].
    apply List.existsb_exists in Hs. destruct Hs as (e & He & Hp).
    apply prefixb_app in Hp. destruct Hp as [rest Hp].
    exists e, rest. split; assumption.
  - rewrite <- List.app_comm_cons, amps_begin_entities_cons in Hs.
    apply andb_prop in Hs. destruct Hs as [_ Hs].
    now apply (IH _ Hs).
Qed.

End EscapeFacts.

(** C10. For every string, the output of [escapeHtml] has no less-than,
    greater-than, double-quote or apostrophe character, every ampersand in
    it begins one of the five entities, and the function is injective. *)
Theorem escapeHtml_safe_and_injective (s : jsstring) :
  Forall (fun c => c <> Escape.LT /\ c <> Escape.GT
                   /\ c <> Escape.QUOT /\ c <> Escape.APOS)
         (Escape.escapeHtml s)
  /\ Entities.amps_begin_entities (Escape.escapeHtml s) = true
  /\ (forall pre post : jsstring,
        Escape.escapeHtml s = pre ++ Escape.AMP :: post ->
        exists e rest, In e Entities.ALL /\ Escape.AMP :: post = e ++ rest)
  /\ (forall s' : jsstring, Escape.escapeHtml s = Escape.escapeHtml s' -> s = s').
Proof.
  split; [|split; [|split]].
  - apply List.Forall_forall. intros c Hc.
    pose proof (escapeHtml_markup_free s) as H.
    rewrite List.forallb_forall in H. specialize (H c Hc).
    unfold Entities.markup_free in H. apply negb_true_iff in H.
    rewrite !orb_false_iff, !N.eqb_neq in H. tauto.
  - apply escapeHtml_amps.
  - intros pre post. apply amps_begin_entities_at, escapeHtml_amps.
  - intros s'. apply escapeHtml_inj.
Qed.

Lemma escapeHtml_safe_and_injective_witness :
  u16 "a<b&c" = u16 "a<b&c"
  /\ exists e rest,
       In e Entities.ALL /\ Escape.AMP :: u16 "lt;b&amp;c" = e ++ rest.
Proof.
  split.
  - apply (proj2 (proj2 (proj2 (escapeHtml_safe_and_injective (u16 "a<b&c"))))).
    reflexivity.
  - apply (proj1 (proj2 (proj2 (escapeHtml_safe_and_injective (u16 "a<b&c"))))
             (u16 "a")).
    reflexivity.
Defined.

(** * The handlers *)

Section HandlerFacts.




(** What [/compare-html] does with a string prompt that is not empty. *)
Lemma compare_html_string path_join server_dirname
      (prompt : jsstring) (now : Z) (w : world) :
  prompt <> [] ->
  compare_html path_join server_dirname (Some (JString prompt)) now w
  = (json_ok (ComparisonUrl (u16 "/dashboards/" ++ compare_filename now)),
     {| files :=
          <[path_join (dashboardsDir path_join server_dirname)
                      (compare_filename now)
            := comparison_document (Escape.escapeHtml prompt)]> (files w);
        dirs := dirs w;
        posts := posts w |}).
Proof.
  intros Hp. unfold compare_html, try_catch.
  destruct prompt as [|c r]; [contradiction|]. reflexivity.
Qed.

End HandlerFacts.

(** C6. For every prompt text that is supplied (a string that is not
    empty), [/compare-html] answers with the URL of a document that it
    writes to the dashboards directory: the fixed head, the fixed heading
    Document Comparison, and a preformatted block that holds exactly the
    escaped prompt: for each character of the prompt, in order, the
    character itself or its entity, so that no other prompt gives the same
    block. The block's content has no markup character of its own. The
    write is the handler's only effect: no request goes to the language
    model, and the document depends on the prompt alone. *)
Theorem compare_html_renders_escaped_prompt
        (path_join : jsstring -> jsstring -> jsstring)
        (server_dirname prompt : jsstring) (now : Z) (w : world) :
  prompt <> [] ->
  let document :=
    COMPARISON_HEAD ++ html "<h1>Document Comparison</h1><pre>"
    ++ Escape.escapeHtml prompt ++ html "</pre></body></html>" in
  let outPath :=
    path_join (dashboardsDir path_join server_dirname) (compare_filename now) in
  let result :=
    compare_html path_join server_dirname (Some (JString prompt)) now w in
  fst result = json_ok (ComparisonUrl (u16 "/dashboards/" ++ compare_filename now))
  /\ files (snd result) = <[outPath := document]> (files w)
  /\ files (snd result) !! outPath = Some document
  /\ dirs (snd result) = dirs w
  /\ posts (snd result) = posts w
  /\ forallb Entities.markup_free (Escape.escapeHtml prompt) = true
  /\ Escape.escapeHtml prompt = flat_map escape_char prompt
  /\ files (snd result) !! outPath
     = Some (COMPARISON_HEAD ++ html "<h1>Document Comparison</h1><pre>"
             ++ flat_map escape_char prompt ++ html "</pre></body></html>")
  /\ Escape.escapeHtml prompt <> []
  /\ (forall other : jsstring,
        Escape.escapeHtml other = Escape.escapeHtml prompt -> other = prompt).
Proof.
  intros Hp document outPath result. subst result.
  rewrite (compare_html_string path_join server_dirname prompt now w Hp).
  simpl. rewrite <- escapeHtml_flat_map.
  split; [reflexivity|]. split; [reflexivity|].
  split; [apply lookup_insert_eq|]. split; [reflexivity|].
  split; [reflexivity|]. split; [apply escapeHtml_markup_free|].
  split; [reflexivity|]. split; [apply lookup_insert_eq|]. split.
  - destruct prompt as [|c r]; [contradiction|].
    rewrite escapeHtml_cons. apply escape_char_app_nonnil.
  - intros other H. now apply escapeHtml_inj.
Qed.

Lemma compare_html_renders_escaped_prompt_witness :
  let result :=
    compare_html PlainPath.join (u16 "/app/backend")
      (Some (JString (u16 "<b>A & B</b>"))) 1700000000000
      {| files := ∅; dirs := ∅; posts := [] |} in
  fst result
  = json_ok (ComparisonUrl (u16 "/dashboards/compare-1700000000000.html"))
  /\ files (snd result)
       !! u16 "/app/backend/../dashboards/compare-1700000000000.html"
     = Some (COMPARISON_HEAD ++ html "<h1>Document Comparison</h1><pre>"
             ++ u16 "&lt;b&gt;A &amp; B&lt;/b&gt;"
             ++ html "</pre></body></html>").
Proof.
  pose proof (compare_html_renders_escaped_prompt PlainPath.join
                (u16 "/app/backend") (u16 "<b>A & B</b>") 1700000000000
                {| files := ∅; dirs := ∅; posts := [] |}
                ltac:(discriminate)) as H.
  cbv zeta in H. destruct H as (H1 & _ & H3 & _). split; [exact H1|exact H3].
Defined.

(** C8. A request whose required field is the empty string is rejected
    like one without the field, before anything else happens:
    [/compare-html] answers 400 with the error Missing prompt and
    [/dashboard] answers 400 with the error Missing savedname, and the
    world (files, directories, requests) is left as it was. *)
Theorem empty_field_is_rejected
        (Number_toString : number -> jsstring)
        (pdfParse : jsstring -> outcome jsstring)
        (path_join : jsstring -> jsstring -> jsstring)
        (path_basename : jsstring -> option jsstring -> jsstring)
        (server_dirname utils_dirname : jsstring) (now : Z) (w : world) :
  compare_html path_join server_dirname (Some (JString [])) now w
  = ({| status := 400; body := ErrorBody (u16 "Missing prompt") None |}, w)
  /\ compare_html path_join server_dirname None now w
     = ({| status := 400; body := ErrorBody (u16 "Missing prompt") None |}, w)
  /\ dashboard Number_toString pdfParse path_join path_basename
       server_dirname utils_dirname (Some (JString [])) w
     = ({| status := 400; body := ErrorBody (u16 "Missing savedname") None |}, w)
  /\ dashboard Number_toString pdfParse path_join path_basename
       server_dirname utils_dirname None w
     = ({| status := 400; body := ErrorBody (u16 "Missing savedname") None |}, w).
Proof. repeat split. Qed.




(** * The renderer *)

Section RendererFacts.

Variable Number_toString : number -> jsstring.

(** The first header stands in the document as it is, between the tags
    of its header cell. *)
Lemma generateHTML_first_header (h : jsstring) (hs : list jsstring)
      (vs : list (list cell)) :
  exists pre post,
    generateHTML Number_toString (h :: hs) vs
    = pre ++ html "<th>" ++ h ++ html "</th>" ++ post.
Proof.
  exists (nl_lines Template.PAGE_HEAD
          ++ 10 :: html "          <h1>" ++ [55357; 56522]
          ++ html " PDF Table Dashboard</h1>"
          ++ nl_lines Template.TABLE_OPEN
          ++ 10 :: html "                " ++ html "<tr>").
  exists (concat (List.map (fun header => html "<th>" ++ header ++ html "</th>") hs)
          ++ html "</tr>"
          ++ nl_lines Template.TABLE_BODY
          ++ 10 :: html "                " ++ tableRows Number_toString vs
          ++ nl_lines Template.PAGE_TAIL).
  unfold generateHTML, tableHeader. cbn [concat List.map].
  repeat first [ rewrite <- List.app_assoc | rewrite <- List.app_comm_cons ].
  reflexivity.
Qed.

End RendererFacts.

(** C1: the renderer does not escape. A header is embedded in the document
    as it is; on the extracted text whose first line is the header
    <script>alert(1)</script>, a tab and B, the rendered document holds the
    header cell with the raw script element, where [escapeHtml] of the
    comparison path would have put entities. *)
Theorem generateHTML_embeds_raw_header (Number_toString : number -> jsstring) :
  let text := u16 "<script>alert(1)</script>" ++ 9 :: u16 "B"
              ++ 10 :: u16 "x" ++ 9 :: u16 "y" in
  exists t pre post,
    Extract.parseTable text = Returned t
    /\ headers t = [u16 "<script>alert(1)</script>"; u16 "B"]
    /\ generateHTML Number_toString (headers t) (values t)
       = pre ++ html "<th><script>alert(1)</script></th>" ++ post
    /\ Escape.escapeHtml (u16 "<script>alert(1)</script>")
       = u16 "&lt;script&gt;alert(1)&lt;/script&gt;".
Proof.
  intros text.
  destruct (generateHTML_first_header Number_toString
              (u16 "<script>alert(1)</script>") [u16 "B"]
              [[CStr (u16 "x"); CStr (u16 "y")]]) as (pre & post & H).
  exists {| headers := [u16 "<script>alert(1)</script>"; u16 "B"];
            values := [[CStr (u16 "x"); CStr (u16 "y")]] |}, pre, post.
  split; [reflexivity|]. split; [reflexivity|]. split; [exact H|reflexivity].
Qed.

(** * Further properties of the built-ins the parser uses *)

Section LineSplitting.
Import JS.

Lemma split_char_nonnil (sep : N) (s : jsstring) : split_char sep s <> [].
Proof.
  induction s as [|c r IH]; simpl; [discriminate|].
  destruct (c =? sep); [discriminate|].
  destruct (split_char sep r); discriminate.
Qed.

Lemma split_char_join (sep : N) (s : jsstring) :
  js_join [sep] (split_char sep s) = s.
Proof.
  induction s as [|c r IH]; [reflexivity|]. simpl.
  pose proof (split_char_nonnil sep r) as Hne.
  destruct (N.eqb_spec c sep) as [->|_].
  - destruct (split_char sep r) as [|cur rest]; [contradiction|].
    change (js_join [sep] ([] :: cur :: rest))
      with (sep :: js_join [sep] (cur :: rest)).
    now rewrite IH.
  - destruct (split_char sep r) as [|cur rest]; [contradiction|].
    destruct rest as [|next rest]; simpl in IH |- *; now rewrite <- IH.
Qed.

Lemma split_char_no_sep (sep : N) (s : jsstring) :
  Forall (fun piece => ~ In sep piece) (split_char sep s).
Proof.
  induction s as [|c r IH]; simpl; [repeat constructor; intros []|].
  destruct (N.eqb_spec c sep) as [->|Hc].
  - constructor; [intros []|exact IH].
  - destruct (split_char sep r) as [|cur rest]; [repeat constructor|].
    + intros [H|[]]. now apply Hc.
    + inversion IH as [|? ? Hcur Hrest]; subst. constructor; [|exact Hrest].
      intros [H|H]; [now apply Hc | now apply Hcur].
Qed.

Lemma split_char_count (sep : N) (s : jsstring) :
  length (split_char sep s) = S (count_occ N.eq_dec s sep).
Proof.
  induction s as [|c r IH]; [reflexivity|]. simpl.
  pose proof (split_char_nonnil sep r) as Hne.
  destruct (N.eqb_spec c sep) as [->|Hc].
  - destruct (N.eq_dec sep sep); [|contradiction]. simpl. now rewrite IH.
  - destruct (N.eq_dec c sep); [contradiction|].
    destruct (split_char sep r); [contradiction|]. exact IH.
Qed.

Lemma split_char_app (sep : N) (a b : jsstring) :
  split_char sep (a ++ sep :: b) = split_char sep a ++ split_char sep b.
Proof.
  induction a as [|c a IH]; simpl.
  - now rewrite N.eqb_refl.
  - destruct (c =? sep); [now rewrite IH|]. rewrite IH.
    pose proof (split_char_nonnil sep a) as Hne.
    destruct (split_char sep a); [contradiction|reflexivity].
Qed.

Lemma split_char_plain (sep : N) (l : jsstring) :
  ~ In sep l -> split_char sep l = [l].
Proof.
  induction l as [|c l IH]; [reflexivity|]. simpl. intros H.
  destruct (N.eqb_spec c sep) as [->|_]; [exfalso; apply H; now left|].
  rewrite IH; [reflexivity|]. intros Hin. apply H. now right.
Qed.

End LineSplitting.

(** X1. The lines that [extractTable] filters are the pieces of the text
    between line breaks: none of them contains a line break, there is one
    more of them than there are line breaks, and joined by line breaks they
    give the text back. *)
Theorem split_lines_round_trip (text : jsstring) :
  js_join [10] (JS.split_char 10 text) = text
  /\ Forall (fun line => ~ In 10 line) (JS.split_char 10 text)
  /\ length (JS.split_char 10 text) = S (count_occ N.eq_dec text 10).
Proof.
  split; [apply split_char_join|].
  split; [apply split_char_no_sep | apply split_char_count].
Qed.

Section TrimFacts.
Import JS.

Lemma drop_while_snoc (p : N -> bool) (l : jsstring) (x : N) :
  p x = false -> drop_while p (l ++ [x]) = drop_while p l ++ [x].
Proof.
  intros Hx. induction l as [|a l IH]; simpl; [now rewrite Hx|].
  destruct (p a); [exact IH|reflexivity].
Qed.

Lemma trimEnd_cons (c : N) (s : jsstring) :
  is_ws c = false -> trimEnd (c :: s) = c :: trimEnd s.
Proof.
  intros Hc. unfold trimEnd. simpl.
  rewrite drop_while_snoc by exact Hc. now rewrite List.rev_app_distr.
Qed.

(** A trimmed string is empty, or starts and ends with a character that is
    not whitespace. *)
Lemma trim_shape (s : jsstring) :
  trim s = []
  \/ exists c r, trim s = c :: r /\ is_ws c = false
       /\ exists l r', rev (trim s) = l :: r' /\ is_ws l = false.
Proof.
  unfold trim, trimStart.
  destruct (drop_while is_ws s) as [|c t] eqn:Ht; [now left|].
  right. pose proof (drop_while_head _ _ _ _ Ht) as Hc.
  rewrite trimEnd_cons by exact Hc.
  exists c, (trimEnd t). split; [reflexivity|]. split; [exact Hc|].
  rewrite <- trimEnd_cons by exact Hc.
  unfold trimEnd. rewrite List.rev_involutive.
  destruct (drop_while is_ws (rev (c :: t))) as [|l r'] eqn:Hr.
  - simpl in Hr. rewrite drop_while_snoc in Hr by exact Hc.
    now destruct (drop_while is_ws (rev t)).
  - exists l, r'. split; [reflexivity|]. exact (drop_while_head _ _ _ _ Hr).
Qed.

Lemma trim_idempotent (s : jsstring) : trim (trim s) = trim s.
Proof.
  destruct (trim_shape s) as [->|(c & r & E & Hc & l & r' & El & Hl)];
    [reflexivity|].
  unfold trim at 1, trimStart, trimEnd.
  rewrite (drop_while_id is_ws (trim s)) by now rewrite E.
  rewrite (drop_while_id is_ws (rev (trim s))) by now rewrite El.
  apply List.rev_involutive.
Qed.

Lemma trim_cons_not_ws (c : N) (s : jsstring) :
  is_ws c = false -> exists r, trim (c :: s) = c :: r.
Proof.
  intros Hc. unfold trim, trimStart. simpl. rewrite Hc.
  rewrite trimEnd_cons by exact Hc. eauto.
Qed.

End TrimFacts.

Section SplitFacts.
Import JS.

Lemma test_cons (c : N) (r : jsstring) :
  Sep.test (c :: r)
  = if Sep.match_at (c :: r) is Some _ then true else Sep.test r.
Proof. reflexivity. Qed.

Lemma split_go_cons (c : N) (r : jsstring) (cur : jsstring) :
  Sep.split_go (c :: r) 0 cur
  = match Sep.match_at (c :: r) with
    | Some n => rev cur :: Sep.split_go r (pred n) []
    | None => Sep.split_go r 0 (c :: cur)
    end.
Proof. reflexivity. Qed.

Lemma split_go_nonnil (s : jsstring) (skip : nat) (cur : jsstring) :
  (1 <= length (Sep.split_go s skip cur))%nat.
Proof.
  revert skip cur. induction s as [|c r IH]; intros skip cur; [simpl; lia|].
  destruct skip as [|k]; [|apply (IH k cur)].
  rewrite split_go_cons.
  destruct (Sep.match_at (c :: r)); [simpl; lia | apply IH].
Qed.

Lemma split_go_no_match (s cur : jsstring) :
  Sep.test s = false -> Sep.split_go s 0 cur = [rev cur ++ s].
Proof.
  revert cur. induction s as [|c r IH]; intros cur H.
  - simpl. now rewrite List.app_nil_r.
  - rewrite test_cons in H. rewrite split_go_cons.
    destruct (Sep.match_at (c :: r)); [discriminate|].
    rewrite (IH _ H). simpl. now rewrite <- List.app_assoc.
Qed.

Lemma split_go_match (s cur : jsstring) :
  Sep.test s = true -> (2 <= length (Sep.split_go s 0 cur))%nat.
Proof.
  revert cur. induction s as [|c r IH]; intros cur H; [discriminate|].
  rewrite test_cons in H. rewrite split_go_cons.
  destruct (Sep.match_at (c :: r)) as [n|].
  - simpl. pose proof (split_go_nonnil r (pred n) []). lia.
  - now apply IH.
Qed.

(** The first piece starts with what has been passed since the last
    separator. *)
Lemma split_go_first (s cur : jsstring) :
  exists p rest, Sep.split_go s 0 cur = (rev cur ++ p) :: rest.
Proof.
  revert cur. induction s as [|c r IH]; intros cur.
  - exists [], []. simpl. now rewrite List.app_nil_r.
  - rewrite split_go_cons. destruct (Sep.match_at (c :: r)) as [n|].
    + exists [], (Sep.split_go r (pred n) []). now rewrite List.app_nil_r.
    + destruct (IH (c :: cur)) as (p & rest & E). exists (c :: p), rest.
      rewrite E. simpl. now rewrite <- List.app_assoc.
Qed.

Lemma ends_ws_snoc (l : jsstring) (c : N) : ends_ws (l ++ [c]) = is_ws c.
Proof.
  induction l as [|a l IH]; [reflexivity|].
  simpl. destruct (l ++ [c]) eqn:E; [now destruct l|]. exact IH.
Qed.

Lemma has_ws_pair_snoc (l : jsstring) (c : N) :
  has_ws_pair (l ++ [c]) = has_ws_pair l || (ends_ws l && is_ws c).
Proof.
  induction l as [|a l IH]; [reflexivity|].
  destruct l as [|b l].
  - simpl. now rewrite !orb_false_r.
  - change (has_ws_pair ((a :: b :: l) ++ [c]))
      with ((is_ws a && is_ws b) || has_ws_pair ((b :: l) ++ [c])).
    rewrite IH.
    change (has_ws_pair (a :: b :: l))
      with ((is_ws a && is_ws b) || has_ws_pair (b :: l)).
    change (ends_ws (a :: b :: l)) with (ends_ws (b :: l)).
    now rewrite orb_assoc.
Qed.

Lemma match_at_none (c : N) (r : jsstring) :
  Sep.match_at (c :: r) = None ->
  (9 =? c) = false
  /\ (is_ws c = true -> match r with x :: _ => is_ws x = false | [] => True end).
Proof.
  unfold Sep.match_at, Sep.TAB. rewrite ws_run_two, (N.eqb_sym 9 c).
  destruct (c =? 9); [discriminate|].
  destruct (is_ws c); simpl; [|intros _; split; [reflexivity|discriminate]].
  destruct r as [|x r]; [now split|].
  destruct (is_ws x); [discriminate|now split].
Qed.

Lemma split_go_pieces_clean (s : jsstring) :
  (forall pre, piece_ok pre s ->
     Forall (fun p => Sep.test p = false) (Sep.split_go s 0 (rev pre)))
  /\ (forall skip,
        Forall (fun p => Sep.test p = false) (Sep.split_go s skip [])).
Proof.
  assert (Hnil : forall s', piece_ok [] s') by (intros s'; now repeat split).
  induction s as [|c r [IH1 IH2]].
  - assert (H1 : forall pre, piece_ok pre [] ->
                   Forall (fun p => Sep.test p = false)
                          (Sep.split_go [] 0 (rev pre))).
    { intros pre (Ht & Hp & _). simpl. rewrite List.rev_involutive.
      constructor; [|constructor].
      rewrite test_tab_or_ws_pair, Ht, Hp. reflexivity. }
    split; [exact H1|]. intros skip. destruct skip; exact (H1 [] (Hnil [])).
  - assert (H1 : forall pre, piece_ok pre (c :: r) ->
                   Forall (fun p => Sep.test p = false)
                          (Sep.split_go (c :: r) 0 (rev pre))).
    { intros pre (Ht & Hp & He). rewrite split_go_cons.
      destruct (Sep.match_at (c :: r)) as [n|] eqn:Hm.
      - constructor; [|apply IH2]. rewrite List.rev_involutive.
        rewrite test_tab_or_ws_pair, Ht, Hp. reflexivity.
      - apply match_at_none in Hm. destruct Hm as [Hc Hnext].
        rewrite <- List.rev_unit. apply IH1. repeat split.
        + rewrite List.existsb_app, Ht. cbn [existsb orb]. now rewrite Hc.
        + rewrite has_ws_pair_snoc, Hp. simpl.
          destruct (ends_ws pre); [|reflexivity].
          now rewrite (He eq_refl).
        + rewrite ends_ws_snoc. exact Hnext. }
    split; [exact H1|]. intros skip. destruct skip as [|k].
    + exact (H1 [] (Hnil _)).
    + simpl. apply IH2.
Qed.

End SplitFacts.

(** X2. A string in which the pattern has no match is its own single
    piece, and only such a string; a string in which the pattern has a
    match, and only such a string, splits into at least two pieces. *)
Theorem split_single_piece_iff (s : jsstring) :
  (Sep.split s = [s] <-> Sep.test s = false)
  /\ ((2 <= length (Sep.split s))%nat <-> Sep.test s = true).
Proof.
  assert (H1 : Sep.test s = false -> Sep.split s = [s]).
  { intros H. unfold Sep.split. now rewrite (split_go_no_match s [] H). }
  assert (H2 : Sep.test s = true -> (2 <= length (Sep.split s))%nat).
  { intros H. apply (split_go_match s [] H). }
  split; split.
  - intros H. destruct (Sep.test s) eqn:E; [|reflexivity].
    specialize (H2 eq_refl). rewrite H in H2. simpl in H2. lia.
  - exact H1.
  - intros H. destruct (Sep.test s) eqn:E; [reflexivity|].
    rewrite (H1 eq_refl) in H. simpl in H. lia.
  - exact H2.
Qed.

(** X3. The split is complete: no piece, and so no cell of any line, has a
    tab or two adjacent whitespace characters left in it. *)
Theorem cells_have_no_separator (line : jsstring) :
  Forall (fun piece => Sep.test piece = false) (Sep.split line)
  /\ Forall (fun cell => existsb (N.eqb 9) cell = false
                         /\ has_ws_pair cell = false)
            (Extract.cells line).
Proof.
  split; [apply (proj2 (split_go_pieces_clean line) 0%nat)|].
  unfold Extract.cells. apply List.Forall_forall. intros cell Hin.
  apply List.filter_In in Hin. destruct Hin as [Hin _].
  pose proof (proj2 (split_go_pieces_clean (JS.trim line)) 0%nat) as H.
  rewrite List.Forall_forall in H. specialize (H cell Hin).
  rewrite test_tab_or_ws_pair in H. now apply orb_false_iff in H.
Qed.

Section TableFacts.
Import JS.

Lemma not_ws_not_sep (c : N) (r : jsstring) :
  is_ws c = false -> Sep.match_at (c :: r) = None.
Proof.
  intros Hc. unfold Sep.match_at, Sep.TAB. rewrite ws_run_two, Hc.
  destruct (N.eqb_spec c 9) as [->|_]; [discriminate Hc|reflexivity].
Qed.

(** A line that is not blank has at least one cell. *)
Lemma cells_nonnil (line : jsstring) :
  trim line <> [] -> Extract.cells line <> [].
Proof.
  intros Hne. unfold Extract.cells, Sep.split.
  destruct (trim_shape line) as [E|(c & r & E & Hc & _)]; [contradiction|].
  rewrite E, split_go_cons, (not_ws_not_sep c r Hc).
  destruct (split_go_first r [c]) as (p & rest & Hs). rewrite Hs. simpl.
  destruct (trim_cons_not_ws c p Hc) as [r' ->]. discriminate.
Qed.

Lemma qualifies_not_blank (line : jsstring) :
  Extract.qualifies line = true -> trim line <> [].
Proof.
  unfold Extract.qualifies. intros H E. rewrite E in H. discriminate H.
Qed.

Lemma table_lines_qualify (text : jsstring) :
  Forall (fun line => Extract.qualifies line = true) (Extract.table_lines text).
Proof.
  unfold Extract.table_lines. apply List.Forall_forall. intros line H.
  now apply List.filter_In in H.
Qed.

Lemma cells_not_blank (line : jsstring) :
  Forall (fun cell => trim cell <> []) (Extract.cells line).
Proof.
  unfold Extract.cells. apply List.Forall_forall. intros cell H.
  apply List.filter_In in H. destruct H as [_ H].
  apply negb_true_iff in H. intros E. rewrite E in H. discriminate.
Qed.

Lemma coerce_ok (value : jsstring) :
  trim value <> [] -> cell_ok (Extract.coerce value).
Proof.
  intros Hne. unfold Extract.coerce, Num.isNaN. cbv zeta.
  destruct (Num.StringToNumber (trim value)) eqn:Hn;
    destruct (trim value) as [|c r] eqn:Ht; try contradiction; simpl;
    try discriminate.
  rewrite <- Ht. repeat split.
  - now rewrite Ht.
  - apply trim_idempotent.
  - now rewrite Ht.
Qed.

Lemma parseTable_values_nonnil (text : jsstring) (t : table) :
  Extract.parseTable text = Returned t -> values t <> [].
Proof.
  unfold Extract.parseTable.
  destruct (Nat.ltb_spec (length (Extract.table_lines text)) 2); [discriminate|].
  cbv zeta.
  match goal with
  | |- context [Nat.eqb (length ?vs) 0] =>
      destruct (Nat.eqb_spec (length vs) 0) as [|Hn]; [discriminate|]
  end.
  intros [= <-]. simpl. intros E. rewrite E in Hn. now apply Hn.
Qed.

End TableFacts.

(** X4. A returned table is never degenerate: it has at least one header
    and at least one row; every header is a non-empty string without
    leading or trailing whitespace; and every cell is either a number other
    than NaN or a non-empty trimmed string that [Number] reads as NaN. *)
Theorem parseTable_table_well_formed (text : jsstring) (t : table) :
  Extract.parseTable text = Returned t ->
  headers t <> [] /\ values t <> []
  /\ Forall (fun h => h <> [] /\ JS.trim h = h) (headers t)
  /\ Forall (Forall cell_ok) (values t).
Proof.
  intros H. pose proof (parseTable_values_nonnil text t H) as Hvs.
  apply parseTable_Returned in H. destruct H as (Hlen & Hh & Hv).
  pose proof (table_lines_qualify text) as Hq.
  destruct (Extract.table_lines text) as [|first more] eqn:Hl;
    [simpl in Hlen; lia|].
  inversion Hq as [|? ? Hq1 Hqs]; subst.
  simpl in Hh. split; [|split; [exact Hvs|split]].
  - rewrite Hh. intros E. apply List.map_eq_nil in E.
    now apply (cells_nonnil first (qualifies_not_blank first Hq1)).
  - rewrite Hh. apply List.Forall_map.
    eapply List.Forall_impl; [|apply cells_not_blank].
    intros c Hc'. simpl in Hc'. split; [exact Hc'|apply trim_idempotent].
  - rewrite Hv. apply List.Forall_map. apply List.Forall_forall.
    intros row Hrow. unfold Extract.matching_rows in Hrow.
    apply List.filter_In in Hrow. destruct Hrow as [Hrow _].
    simpl in Hrow. apply List.in_map_iff in Hrow.
    destruct Hrow as (line & <- & _). apply List.Forall_map.
    eapply List.Forall_impl; [|apply cells_not_blank].
    intros c Hc'. simpl in Hc'. now apply coerce_ok.
Qed.


Lemma parseTable_table_well_formed_witness :
  [u16 "A"; u16 "B"] <> []
  /\ [[CNum (Finite false 1 0); CStr (u16 "x y")]] <> []
  /\ Forall (fun h => h <> [] /\ JS.trim h = h) [u16 "A"; u16 "B"]
  /\ Forall (Forall cell_ok) [[CNum (Finite false 1 0); CStr (u16 "x y")]].
Proof.
  exact (parseTable_table_well_formed
    (u16 " A  B " ++ 10 :: u16 "1  x y")
    {| headers := [u16 "A"; u16 "B"];
       values := [[CNum (Finite false 1 0); CStr (u16 "x y")]] |}
    eq_refl).
Defined.

(** X5. Lines that do not qualify are ignored wherever they stand: a line
    of prose or a blank line between two parts of the text, before the
    text or after it, does not change what the parser returns or throws. *)
Theorem parseTable_ignores_other_lines (before line after : jsstring) :
  Extract.qualifies line = false ->
  ~ In 10 line ->
  Extract.parseTable (before ++ 10 :: line ++ 10 :: after)
  = Extract.parseTable (before ++ 10 :: after)
  /\ Extract.parseTable (line ++ 10 :: after) = Extract.parseTable after
  /\ Extract.parseTable (before ++ 10 :: line) = Extract.parseTable before.
Proof.
  intros Hq Hnl.
  assert (Hlines : forall a b,
             Extract.table_lines (a ++ 10 :: b)
             = Extract.table_lines a ++ Extract.table_lines b).
  { intros a b. unfold Extract.table_lines.
    now rewrite split_char_app, List.filter_app. }
  assert (Hone : Extract.table_lines line = []).
  { unfold Extract.table_lines. rewrite (split_char_plain 10 line Hnl).
    simpl. now rewrite Hq. }
  unfold Extract.parseTable.
  rewrite !Hlines, Hone, List.app_nil_r. simpl. auto.
Qed.

Lemma parseTable_ignores_other_lines_witness :
  Extract.parseTable (u16 "A  B" ++ 10 :: u16 "some prose" ++ 10 :: u16 "1  2")
  = Extract.parseTable (u16 "A  B" ++ 10 :: u16 "1  2").
Proof.
  apply (parseTable_ignores_other_lines (u16 "A  B") (u16 "some prose")
           (u16 "1  2")).
  - reflexivity.
  - vm_compute. intuition discriminate.
Defined.

(** X6. Coercion does not depend on whitespace around the cell and is
    stable: the text of a cell that was kept as a string is kept as the
    same string when coerced again. *)
Theorem coerce_stable (value : jsstring) :
  Extract.coerce (JS.trim value) = Extract.coerce value
  /\ forall kept : jsstring,
       Extract.coerce value = CStr kept ->
       Extract.coerce kept = CStr kept.
Proof.
  assert (H : Extract.coerce (JS.trim value) = Extract.coerce value).
  { unfold Extract.coerce. now rewrite trim_idempotent. }
  split; [exact H|]. intros kept E.
  assert (Hk : kept = JS.trim value).
  { unfold Extract.coerce in E. cbv zeta in E.
    destruct (negb _ && negb _); [discriminate|]. now injection E. }
  subst kept. now rewrite H.
Qed.

Lemma coerce_stable_witness :
  Extract.coerce (u16 "n/a") = CStr (u16 "n/a").
Proof.
  apply (proj2 (coerce_stable (u16 " n/a ")) (u16 "n/a")). reflexivity.
Defined.

(** * Printing and reading integers *)

Section Decimals.
Import JS.

Lemma u16_String (a : ascii) (s : string) :
  u16 (String a s) = N_of_ascii a :: u16 s.
Proof. reflexivity. Qed.

Lemma uint_chars_digits (d : Decimal.uint) :
  forallb Num.is_digit (u16 (NilEmpty.string_of_uint d)) = true.
Proof.
  induction d; cbn [NilEmpty.string_of_uint]; [reflexivity| ..];
    rewrite u16_String; cbn [forallb]; rewrite IHd; reflexivity.
Qed.

Lemma radix_step (acc : N) (c : N) (ds : jsstring) :
  fold_left (fun a x => 10 * a + Num.digit_val x) (c :: ds) acc
  = fold_left (fun a x => 10 * a + Num.digit_val x) ds
      (10 * acc + Num.digit_val c).
Proof. reflexivity. Qed.

Lemma uint_chars_value_acc (d : Decimal.uint) (acc : positive) :
  fold_left (fun a x => 10 * a + Num.digit_val x)
            (u16 (NilEmpty.string_of_uint d)) (N.pos acc)
  = N.pos (Pos.of_uint_acc d acc).
Proof.
  revert acc.
  induction d; intros acc; cbn [NilEmpty.string_of_uint Pos.of_uint_acc];
    [reflexivity| ..];
    rewrite u16_String, radix_step, <- IHd; f_equal;
    vm_compute (Num.digit_val _); lia.
Qed.

(** The digits printed for a decimal numeral are read back as its value. *)
Lemma uint_chars_value (d : Decimal.uint) :
  Num.radix_value 10 (u16 (NilEmpty.string_of_uint d)) = Pos.of_uint d.
Proof.
  unfold Num.radix_value.
  induction d; cbn [NilEmpty.string_of_uint Pos.of_uint];
    [reflexivity| | ..];
    rewrite u16_String, radix_step;
    first [ exact IHd | apply (uint_chars_value_acc d) ].
Qed.

Lemma take_while_all_id (p : N -> bool) (s : jsstring) :
  forallb p s = true -> take_while p s = s /\ drop_while p s = [].
Proof.
  induction s as [|c r IH]; [now split|]. simpl. intros H.
  apply andb_prop in H. destruct H as [Hc Hr]. rewrite Hc.
  destruct (IH Hr) as [-> ->]. now split.
Qed.

Lemma digit_not_ws (c : N) : Num.is_digit c = true -> negb (is_ws c) = true.
Proof.
  intros H. apply digit_or_point_not_ws. unfold digit_or_point. now rewrite H.
Qed.

(** A non-empty string of digits, with or without a minus sign in front,
    is read as the integer it spells. *)
Lemma digits_StringToNumber (neg : bool) (ds : jsstring) :
  ds <> [] -> forallb Num.is_digit ds = true ->
  Num.StringToNumber ((if neg then [45] else []) ++ ds)
  = Finite neg (Num.radix_value 10 ds) 0.
Proof.
  intros Hne Hd.
  assert (Hu : Num.StrUnsignedDecimalLiteral neg ds
               = Finite neg (Num.radix_value 10 ds) 0).
  { unfold Num.StrUnsignedDecimalLiteral.
    destruct (bool_decide_reflect (ds = u16 "Infinity")) as [->|_];
      [discriminate Hd|].
    destruct (take_while_all_id _ _ Hd) as [-> ->].
    rewrite List.app_nil_r. destruct ds; [contradiction|reflexivity]. }
  assert (Hall : forallb (fun c => negb (is_ws c))
                         ((if neg then [45] else []) ++ ds) = true).
  { rewrite List.forallb_app. apply andb_true_intro. split.
    - now destruct neg.
    - revert Hd. apply forallb_weaken, digit_not_ws. }
  destruct ds as [|c r]; [contradiction|].
  assert (Hnd : Num.NonDecimalIntegerLiteral ((if neg then [45] else []) ++ c :: r)
                = None).
  { apply strict_not_prefixed.
    assert (Hdp : forallb digit_or_point (c :: r) = true).
    { revert Hd. apply forallb_weaken. intros x Hx.
      unfold digit_or_point. now rewrite Hx. }
    destruct neg; [exact Hdp|].
    assert (Hs : (c =? 43) || (c =? 45) = false).
    { simpl in Hd. apply andb_prop in Hd. destruct Hd as [Hc _].
      unfold Num.is_digit in Hc. apply andb_prop in Hc.
      destruct Hc as [Hlo _]. apply N.leb_le in Hlo.
      apply orb_false_iff. split; apply N.eqb_neq; lia. }
    unfold Spec.unsigned_part. rewrite List.app_nil_l, Hs. exact Hdp. }
  destruct neg; cbn [app] in Hall, Hnd |- *;
    unfold Num.StringToNumber; rewrite (trim_no_ws _ Hall); cbv beta iota;
    unfold Num.StrNumericLiteral; rewrite Hnd.
  - exact Hu.
  - assert (Hs : (c =? 43) = false /\ (c =? 45) = false).
    { simpl in Hd. apply andb_prop in Hd. destruct Hd as [Hc _].
      unfold Num.is_digit in Hc. apply andb_prop in Hc.
      destruct Hc as [Hlo _]. apply N.leb_le in Hlo.
      split; apply N.eqb_neq; lia. }
    unfold Num.StrDecimalLiteral. destruct Hs as [-> ->]. exact Hu.
Qed.

Lemma Integer_toString_shape (z : Z) :
  exists d : Decimal.uint,
    d <> Decimal.Nil
    /\ Integer_toString z
       = (if (z <? 0)%Z then [45] else []) ++ u16 (NilEmpty.string_of_uint d)
    /\ Pos.of_uint d = Z.abs_N z.
Proof.
  destruct z as [|p|p]; unfold Integer_toString; simpl.
  - exists (Decimal.D0 Decimal.Nil). now repeat split.
  - exists (Pos.to_uint p).
    pose proof (DecimalPos.Unsigned.to_uint_nonnil p) as Hn.
    split; [exact Hn|]. split; [|apply DecimalPos.Unsigned.of_to].
    unfold NilZero.string_of_uint. now destruct (Pos.to_uint p).
  - exists (Pos.to_uint p).
    pose proof (DecimalPos.Unsigned.to_uint_nonnil p) as Hn.
    split; [exact Hn|]. split; [|apply DecimalPos.Unsigned.of_to].
    rewrite u16_String. unfold NilZero.string_of_uint.
    now destruct (Pos.to_uint p).
Qed.

End Decimals.

(** The printed digits of any integer, read by the model of [Number]
    before rounding. *)
Lemma printed_integer_value (z : Z) :
  Integer_toString z <> []
  /\ JS.trim (Integer_toString z) = Integer_toString z
  /\ Num.StringToNumber (Integer_toString z)
     = Finite (z <? 0)%Z (Z.abs_N z) 0.
Proof.
  destruct (Integer_toString_shape z) as (d & Hd & E & Hv).
  assert (Hne : u16 (NilEmpty.string_of_uint d) <> []).
  { destruct d; [contradiction| ..]; discriminate. }
  split; [|split].
  - rewrite E. intros H. apply List.app_eq_nil in H. now destruct H.
  - apply trim_no_ws. rewrite E, List.forallb_app.
    apply andb_true_intro. split; [now destruct (z <? 0)%Z|].
    generalize (uint_chars_digits d). apply forallb_weaken, digit_not_ws.
  - rewrite E, digits_StringToNumber, uint_chars_value, Hv;
      [reflexivity | exact Hne | apply uint_chars_digits].
Qed.

(** X7. Printing a safe integer and reading it back is a round trip. For
    an integer below 2^53 in absolute value (every time value is), where
    the number is its own double and is printed with all its digits, the
    text that the server prints is a non-empty string that [Number] reads
    as that integer, so as a cell it is coerced to the number it was
    printed from. *)
Theorem Number_of_printed_integer (z : Z) :
  (Z.abs z < 2 ^ 53)%Z ->
  Integer_toString z <> []
  /\ Num.StringToNumber (Integer_toString z)
     = Finite (z <? 0)%Z (Z.abs_N z) 0
  /\ Extract.coerce (Integer_toString z)
     = CNum (Finite (z <? 0)%Z (Z.abs_N z) 0).
Proof.
  intros _. destruct (printed_integer_value z) as (Hnn & Ht & Hn).
  split; [exact Hnn|]. split; [exact Hn|].
  unfold Extract.coerce, Num.isNaN. cbv zeta. rewrite Ht, Hn.
  destruct (Integer_toString z); [contradiction|reflexivity].
Qed.

Lemma Number_of_printed_integer_witness :
  Extract.coerce (u16 "1700000000123")
  = CNum (Finite false 1700000000123 0).
Proof.
  apply (Number_of_printed_integer 1700000000123). reflexivity.
Defined.

(** * More on the escaper *)

Section EscapeMore.
Import JS Escape.

Lemma escape_char_length (c : N) :
  (1 <= length (escape_char c) <= 6)%nat
  /\ (length (escape_char c) = 1%nat <-> special c = false)
  /\ (special c = false -> escape_char c = [c]).
Proof.
  unfold escape_char, special, AMP, LT, GT, QUOT, APOS.
  repeat match goal with
         | |- context [N.eqb c ?k] => destruct (N.eqb_spec c k); [subst c|]
         end; simpl; repeat split; intros; try lia; try discriminate;
    reflexivity.
Qed.

Lemma escapeHtml_length (s : jsstring) :
  (length s <= length (escapeHtml s) <= 6 * length s)%nat.
Proof.
  induction s as [|c s IH]; [simpl; lia|].
  rewrite escapeHtml_cons, List.length_app.
  destruct (escape_char_length c) as [H _]. simpl. lia.
Qed.

Lemma escapeHtml_plain (s : jsstring) :
  existsb special s = false -> escapeHtml s = s.
Proof.
  induction s as [|c s IH]; [reflexivity|]. simpl. intros H.
  apply orb_false_iff in H. destruct H as [Hc Hs].
  rewrite escapeHtml_cons, (IH Hs).
  destruct (escape_char_length c) as (_ & _ & E). now rewrite (E Hc).
Qed.

Lemma escapeHtml_same_length (s : jsstring) :
  length (escapeHtml s) = length s -> existsb special s = false.
Proof.
  induction s as [|c s IH]; [reflexivity|].
  rewrite escapeHtml_cons, List.length_app. simpl. intros H.
  destruct (escape_char_length c) as (Hb & Hone & _).
  pose proof (escapeHtml_length s) as Hs.
  apply orb_false_iff. split.
  - apply Hone. lia.
  - apply IH. lia.
Qed.

End EscapeMore.

(** X8. [escapeHtml] leaves a string as it is exactly when the string has
    none of the five characters it replaces; so escaping twice differs
    from escaping once whenever something was escaped. *)
Theorem escapeHtml_fixed_iff_plain (s : jsstring) :
  (Escape.escapeHtml s = s <-> existsb special s = false)
  /\ (Escape.escapeHtml (Escape.escapeHtml s) = Escape.escapeHtml s
      <-> existsb special s = false).
Proof.
  assert (H : forall x, Escape.escapeHtml x = x <-> existsb special x = false).
  { intros x. split; [|apply escapeHtml_plain].
    intros E. apply escapeHtml_same_length. now rewrite E. }
  split; [apply H|]. split.
  - intros E. apply H. now apply escapeHtml_inj.
  - intros E. apply H in E. now rewrite E.
Qed.

(** X9. [escapeHtml] works character by character: the escape of a
    concatenation is the concatenation of the escapes, and the result is
    at least as long as the input and at most six times as long. *)
Theorem escapeHtml_concat_and_length (a b : jsstring) :
  Escape.escapeHtml (a ++ b) = Escape.escapeHtml a ++ Escape.escapeHtml b
  /\ (length a <= length (Escape.escapeHtml a) <= 6 * length a)%nat.
Proof. split; [apply escapeHtml_app | apply escapeHtml_length]. Qed.

(** * More on the handlers *)

Section DashboardFacts.

Variable Number_toString : number -> jsstring.
Variable pdfParse : jsstring -> outcome jsstring.
Variable path_join : jsstring -> jsstring -> jsstring.
Variable path_basename : jsstring -> option jsstring -> jsstring.
Variable server_dirname : jsstring.
Variable utils_dirname : jsstring.

Local Abbreviation run :=
  (dashboard Number_toString pdfParse path_join path_basename
     server_dirname utils_dirname).
Local Abbreviation failed e :=
  (json_status 500 (ErrorBody (u16 "Failed to generate dashboard") (Some e))).

(** The four ways [/dashboard] can go on a string that is not empty. *)
Lemma dashboard_string (s : jsstring) (w : world) :
  s <> [] ->
  let pdfPath := path_join (uploadsDir path_join server_dirname) s in
  let dashboardDir := path_join utils_dirname (u16 "../../dashboards") in
  let outputPath :=
    path_join dashboardDir
      (path_basename pdfPath (Some (u16 ".pdf")) ++ u16 ".html") in
  run (Some (JString s)) w
  = match files w !! pdfPath with
    | None => (failed (ENOENT pdfPath), w)
    | Some buffer =>
        match pdfParse buffer with
        | Thrown e => (failed e, w)
        | Returned text =>
            match Extract.parseTable text with
            | Thrown e => (failed e, w)
            | Returned t =>
                (json_ok (DashboardUrl
                            (u16 "/dashboards/" ++ path_basename outputPath None)),
                 {| files :=
                      <[outputPath
                        := generateHTML Number_toString (headers t) (values t)]>
                        (files w);
                    dirs := {[dashboardDir]} ∪ dirs w;
                    posts := posts w |})
            end
        end
    end.
Proof.
  intros Hs. destruct s as [|c r]; [contradiction|].
  unfold dashboard, try_catch, pdfTableToHTMLDashboard, extractTable,
    saveHTMLToFile, bind, lift, ret, Fs.readFile, Fs.mkdir, Fs.writeFile.
  cbn [truthy JS.is_empty negb join_field].
  destruct (files w !! _); [|reflexivity].
  destruct (pdfParse _); [|reflexivity].
  destruct (Extract.parseTable _); reflexivity.
Qed.

Lemma dashboard_not_string (v : option json) (w : world) :
  (forall s, s <> [] -> v <> Some (JString s)) ->
  run v w
  = (if truthy v then failed TypeError
     else json_status 400 (ErrorBody (u16 "Missing savedname") None), w).
Proof.
  intros H. destruct v as [[| b | n | s |]|]; try reflexivity.
  - destruct b; reflexivity.
  - destruct n as [|neg m e|neg]; try reflexivity.
    unfold dashboard, try_catch. cbn [truthy].
    destruct (rounds_to_zero m e); reflexivity.
  - destruct s as [|c r]; [reflexivity|]. exfalso.
    now apply (H (c :: r)).
Qed.

End DashboardFacts.

(** A body field is a string that is not empty, or it is not. *)
Lemma classic_string (v : option json) :
  (exists s, v = Some (JString s) /\ s <> [])
  \/ (forall s, s <> [] -> v <> Some (JString s)).
Proof.
  destruct v as [[| | | s |]|]; try (right; intros; discriminate).
  destruct s as [|c r].
  - right. intros s Hs [= <-]. now apply Hs.
  - left. exists (c :: r). split; [reflexivity|discriminate].
Qed.

(** X10. A body field that is present and truthy but not a string (a
    number, [true], an array or an object) is not rejected with 400: the
    handler runs into a TypeError, answers 500 with its own failure
    message, and leaves the world as it was. *)
Theorem non_string_field_is_a_server_error
        (Number_toString : number -> jsstring)
        (pdfParse : jsstring -> outcome jsstring)
        (path_join : jsstring -> jsstring -> jsstring)
        (path_basename : jsstring -> option jsstring -> jsstring)
        (server_dirname utils_dirname : jsstring)
        (v : json) (now : Z) (w : world) :
  truthy (Some v) = true ->
  (forall s, v <> JString s) ->
  compare_html path_join server_dirname (Some v) now w
  = (json_status 500
       (ErrorBody (u16 "Failed to generate comparison HTML") (Some TypeError)),
     w)
  /\ dashboard Number_toString pdfParse path_join path_basename
       server_dirname utils_dirname (Some v) w
     = (json_status 500
          (ErrorBody (u16 "Failed to generate dashboard") (Some TypeError)),
        w).
Proof.
  intros Ht Hs. split.
  - unfold compare_html, try_catch, bind, lift.
    rewrite Ht. destruct v; try reflexivity. now destruct (Hs s).
  - rewrite dashboard_not_string, Ht; [reflexivity|].
    intros s _ [= E]. now apply (Hs s).
Qed.

Lemma non_string_field_is_a_server_error_witness :
  compare_html PlainPath.join (u16 "/app/backend") (Some (JNumber (Finite false 7 0)))
    0 {| files := ∅; dirs := ∅; posts := [] |}
  = (json_status 500
       (ErrorBody (u16 "Failed to generate comparison HTML") (Some TypeError)),
     {| files := ∅; dirs := ∅; posts := [] |}).
Proof.
  apply (non_string_field_is_a_server_error (fun _ => []) Returned
           PlainPath.join PlainPath.basename (u16 "/app/backend")
           (u16 "/app/backend/utils") (JNumber (Finite false 7 0)) 0
           {| files := ∅; dirs := ∅; posts := [] |}).
  - reflexivity.
  - discriminate.
Defined.

(** X11. [/dashboard] answers 200 only when the field is a string that is
    not empty, the named upload exists, the extractor reads it and the
    parser finds a table in its text. When one of these fails, the handler
    answers 400 or 500 and the world is as before: the failure comes
    before the directory is made and before anything is written. *)
Theorem dashboard_fails_without_effect
        (Number_toString : number -> jsstring)
        (pdfParse : jsstring -> outcome jsstring)
        (path_join : jsstring -> jsstring -> jsstring)
        (path_basename : jsstring -> option jsstring -> jsstring)
        (server_dirname utils_dirname : jsstring)
        (savedname : option json) (w : world) :
  let result := dashboard Number_toString pdfParse path_join path_basename
                  server_dirname utils_dirname savedname w in
  let ready :=
    exists s buffer text t,
      savedname = Some (JString s) /\ s <> []
      /\ files w !! path_join (uploadsDir path_join server_dirname) s
         = Some buffer
      /\ pdfParse buffer = Returned text
      /\ Extract.parseTable text = Returned t in
  (status (fst result) = 200%nat -> ready)
  /\ (~ ready ->
      snd result = w
      /\ (status (fst result) = 400%nat \/ status (fst result) = 500%nat)).
Proof.
  intros result ready. subst result ready.
  destruct (classic_string savedname) as [(s & -> & Hs)|Hn].
  - rewrite (dashboard_string Number_toString pdfParse path_join path_basename
               server_dirname utils_dirname s w Hs). cbv zeta.
    destruct (files w !! _) as [buffer|] eqn:Hf.
    + destruct (pdfParse buffer) as [text|e] eqn:Hp.
      * destruct (Extract.parseTable text) as [t|e] eqn:Ht; simpl.
        -- split.
           ++ intros _. exists s, buffer, text, t. auto.
           ++ intros Hnot. exfalso. apply Hnot.
              exists s, buffer, text, t. auto.
        -- split; [discriminate|]. intros _. auto.
      * simpl. split; [discriminate|]. intros _. auto.
    + simpl. split; [discriminate|]. intros _. auto.
  - rewrite dashboard_not_string by exact Hn.
    destruct (truthy savedname); simpl;
      (split; [discriminate|]; intros _; auto).
Qed.

Lemma dashboard_fails_without_effect_witness :
  snd (dashboard (fun _ => []) Returned PlainPath.join PlainPath.basename
         (u16 "/app/backend") (u16 "/app/backend/utils")
         (Some (JString (u16 "17.pdf")))
         {| files := ∅; dirs := ∅; posts := [] |})
  = {| files := ∅; dirs := ∅; posts := [] |}.
Proof.
  apply (proj2 (dashboard_fails_without_effect (fun _ => []) Returned
                  PlainPath.join PlainPath.basename
                  (u16 "/app/backend") (u16 "/app/backend/utils")
                  (Some (JString (u16 "17.pdf")))
                  {| files := ∅; dirs := ∅; posts := [] |})).
  intros (s & buffer & text & t & [= <-] & _ & Hf & _). discriminate Hf.
Defined.

(** X12. When the upload exists, is read and has a table, [/dashboard]
    writes the rendered table to the dashboards directory under the
    upload's base name with the extension [.html], makes that directory,
    leaves every other file alone and posts nothing; when [path.basename]
    of the written path is that file name, the URL it answers is
    [/dashboards/] followed by the file name. *)
Theorem dashboard_publishes_rendered_table
        (Number_toString : number -> jsstring)
        (pdfParse : jsstring -> outcome jsstring)
        (path_join : jsstring -> jsstring -> jsstring)
        (path_basename : jsstring -> option jsstring -> jsstring)
        (server_dirname utils_dirname : jsstring)
        (s buffer text : jsstring) (t : table) (w : world) :
  let pdfPath := path_join (uploadsDir path_join server_dirname) s in
  let dashboardDir := path_join utils_dirname (u16 "../../dashboards") in
  let name := path_basename pdfPath (Some (u16 ".pdf")) ++ u16 ".html" in
  let outputPath := path_join dashboardDir name in
  let result := dashboard Number_toString pdfParse path_join path_basename
                  server_dirname utils_dirname (Some (JString s)) w in
  s <> [] ->
  files w !! pdfPath = Some buffer ->
  pdfParse buffer = Returned text ->
  Extract.parseTable text = Returned t ->
  path_basename outputPath None = name ->
  fst result = json_ok (DashboardUrl (u16 "/dashboards/" ++ name))
  /\ files (snd result) !! outputPath
     = Some (generateHTML Number_toString (headers t) (values t))
  /\ (forall p, p <> outputPath -> files (snd result) !! p = files w !! p)
  /\ dashboardDir ∈ dirs (snd result)
  /\ (forall d, d ∈ dirs w -> d ∈ dirs (snd result))
  /\ posts (snd result) = posts w.
Proof.
  intros pdfPath dashboardDir name outputPath result Hs Hf Hp Ht Hb.
  subst result.
  rewrite (dashboard_string Number_toString pdfParse path_join path_basename
             server_dirname utils_dirname s w Hs). cbv zeta.
  fold pdfPath. rewrite Hf, Hp, Ht. fold dashboardDir. fold name.
  fold outputPath. rewrite Hb. simpl. repeat split.
  - apply lookup_insert_eq.
  - intros p Hne. now apply lookup_insert_ne.
  - set_solver.
  - set_solver.
Qed.

Lemma dashboard_publishes_rendered_table_witness :
  fst (dashboard (fun _ => []) Returned PlainPath.join PlainPath.basename
         (u16 "/app/backend") (u16 "/app/backend/utils")
         (Some (JString (u16 "17.pdf")))
         {| files := {[ u16 "/app/backend/uploads/17.pdf"
                        := u16 "A  B" ++ 10 :: u16 "x  y" ]};
            dirs := ∅; posts := [] |})
  = json_ok (DashboardUrl (u16 "/dashboards/17.html")).
Proof.
  apply (dashboard_publishes_rendered_table (fun _ => []) Returned
           PlainPath.join PlainPath.basename
           (u16 "/app/backend") (u16 "/app/backend/utils")
           (u16 "17.pdf") (u16 "A  B" ++ 10 :: u16 "x  y")
           (u16 "A  B" ++ 10 :: u16 "x  y")
           {| headers := [u16 "A"; u16 "B"];
              values := [[CStr (u16 "x"); CStr (u16 "y")]] |}
           {| files := {[ u16 "/app/backend/uploads/17.pdf"
                          := u16 "A  B" ++ 10 :: u16 "x  y" ]};
              dirs := ∅; posts := [] |}).
  - discriminate.
  - vm_compute. reflexivity.
  - reflexivity.
  - reflexivity.
  - vm_compute. reflexivity.
Defined.

(** X13. [/ask] sends a request to the language model only with an API
    key: without one (absent or empty) it answers 400 and posts nothing;
    with one it posts exactly one request, to the model's URL ending in the
    key, and relays the model's answer or answers 500 when the call fails.
    It never touches files or directories. *)
Theorem ask_posts_only_with_key
        (gemini : jsstring -> jsstring -> outcome (option jsstring))
        (API_KEY : option jsstring) (question pdfText : jsstring) (w : world) :
  let result := ask gemini API_KEY question pdfText w in
  let url :=
    u16 "https://generativelanguage.googleapis.com/v1beta/models/gemini-1.5-flash:generateContent?key="
    ++ default [] API_KEY in
  let text := u16 "Context:" ++ 10 :: pdfText ++ [10; 10]
              ++ u16 "Question: " ++ question in
  files (snd result) = files w
  /\ dirs (snd result) = dirs w
  /\ (API_KEY = None \/ API_KEY = Some [] ->
      result = (json_status 400
                  (ErrorBody (u16 "Missing GEMINI_API_KEY on server") None), w))
  /\ (API_KEY <> None -> API_KEY <> Some [] ->
      posts (snd result) = posts w ++ [url]
      /\ fst result
         = match gemini url text with
           | Returned answer => json_ok (Answer answer)
           | Thrown e =>
               json_status 500 (ErrorBody (u16 "Gemini Request Failed") (Some e))
           end).
Proof.
  intros result url text. subst result url text.
  unfold ask, try_catch, bind, ret, axios_post.
  destruct API_KEY as [[|c k]|]; simpl.
  - split; [reflexivity|]. split; [reflexivity|]. split; [reflexivity|].
    intros _ H. now destruct H.
  - destruct (gemini _ _); simpl;
      (split; [reflexivity|]; split; [reflexivity|]; split;
       [intros [H|H]; discriminate H | intros _ _; split; reflexivity]).
  - split; [reflexivity|]. split; [reflexivity|]. split; [reflexivity|].
    intros H. now destruct H.
Qed.

Lemma ask_posts_only_with_key_witness :
  ask (fun _ _ => Returned None) (Some []) (u16 "q") (u16 "t")
    {| files := ∅; dirs := ∅; posts := [] |}
  = (json_status 400 (ErrorBody (u16 "Missing GEMINI_API_KEY on server") None),
     {| files := ∅; dirs := ∅; posts := [] |}).
Proof.
  apply (proj1 (proj2 (proj2 (ask_posts_only_with_key (fun _ _ => Returned None)
           (Some []) (u16 "q") (u16 "t")
           {| files := ∅; dirs := ∅; posts := [] |})))).
  now right.
Defined.

(** X14. Publishing is idempotent: saving the same document under the same
    name a second time returns the same path and leaves the world exactly
    as the first save left it. *)
Theorem saveHTMLToFile_idempotent
        (path_join : jsstring -> jsstring -> jsstring)
        (utils_dirname htmlContent filename : jsstring) (w : world) :
  saveHTMLToFile path_join utils_dirname htmlContent filename
    (snd (saveHTMLToFile path_join utils_dirname htmlContent filename w))
  = saveHTMLToFile path_join utils_dirname htmlContent filename w.
Proof.
  unfold saveHTMLToFile, bind, ret, Fs.mkdir, Fs.writeFile. simpl.
  f_equal. f_equal.
  - apply insert_insert_eq.
  - now rewrite (assoc_L (∪)), (idemp_L (∪)).
Qed.

(** X15. The callback of the single-file [/upload] of [backend/index.js],
    which runs once the upload middleware has stored the file: it answers
    200 with the extracted text exactly when the request had a file, the
    stored file is read from disk and the extractor reads it; in every
    other case, a request without a file included, it answers 500 with
    Failed to process PDF. The callback itself writes nothing: the world
    it leaves is the world the middleware handed to it. *)
Theorem upload_single_outcomes
        (pdfParse : jsstring -> outcome jsstring)
        (file : option jsstring) (w : world) :
  let result := upload_single pdfParse file w in
  snd result = w
  /\ (forall text,
        fst result = (200%nat, TextBody text)
        <-> exists path buffer,
              file = Some path /\ files w !! path = Some buffer
              /\ pdfParse buffer = Returned text)
  /\ ((exists text, fst result = (200%nat, TextBody text))
      \/ fst result = (500%nat, UploadFailed (u16 "Failed to process PDF"))).
Proof.
  intros result. subst result.
  unfold upload_single, bind, lift, ret, Fs.readFile.
  destruct file as [path|]; simpl.
  - destruct (files w !! path) as [buffer|] eqn:Hf; simpl.
    + destruct (pdfParse buffer) as [text|e] eqn:Hp; simpl.
      * split; [reflexivity|]. split; [|left; eauto]. intros text'. split.
        -- intros [= <-]. eauto.
        -- intros (p' & b' & [= <-] & Hf' & Hp'). congruence.
      * split; [reflexivity|]. split; [|now right]. intros text'. split.
        -- discriminate.
        -- intros (p' & b' & [= <-] & Hf' & Hp'). congruence.
    + split; [reflexivity|]. split; [|now right]. intros text'. split.
      * discriminate.
      * intros (p' & b' & [= <-] & Hf' & _). congruence.
  - split; [reflexivity|]. split; [|now right]. intros text'. split.
    + discriminate.
    + intros (p' & b' & [=] & _).
Qed.

(** * The frontend's comparison request *)

Section PromptFacts.

Lemma js_join_contains (sep : jsstring) (pieces : list jsstring) (x : jsstring) :
  In x pieces -> exists a b, js_join sep pieces = a ++ x ++ b.
Proof.
  induction pieces as [|y l IH]; [contradiction|].
  destruct l as [|z l].
  - intros [->|[]]. exists [], []. simpl. now rewrite List.app_nil_r.
  - change (js_join sep (y :: z :: l)) with (y ++ sep ++ js_join sep (z :: l)).
    intros [->|H].
    + exists [], (sep ++ js_join sep (z :: l)). reflexivity.
    + destruct (IH H) as (a & b & E). exists (y ++ sep ++ a), b.
      rewrite E. now rewrite <- !List.app_assoc.
Qed.

Lemma imap_In {A B} (f : nat -> A -> B) (l : list A) (x : A) :
  In x l -> exists i, In (f i x) (imap f l).
Proof.
  revert f. induction l as [|y l IH]; intros f; [contradiction|].
  simpl. intros [->|H].
  - exists 0%nat. now left.
  - destruct (IH (f ∘ S) H) as [i Hi]. exists (S i). now right.
Qed.

(** The prompt holds the text of every document it was built from. *)
Lemma comparisonPrompt_contains (pdfs : list App.pdf) (pdf : App.pdf) :
  In pdf pdfs ->
  exists a b, App.comparisonPrompt pdfs = a ++ App.text pdf ++ b.
Proof.
  intros H. destruct (imap_In App.document_block pdfs pdf H) as [i Hi].
  destruct (js_join_contains [10; 10] _ _ Hi) as (a & b & E).
  unfold App.comparisonPrompt. rewrite E. unfold App.document_block.
  exists (u16 "Compare the following documents and highlight key similarities and differences."
          ++ 10 :: u16 "    " ++ 10 :: u16 "    " ++ a
          ++ u16 "--- Document " ++ Integer_toString (Z.of_nat i + 1)
          ++ u16 ": " ++ App.filename pdf ++ u16 " ---" ++ [10]), b.
  repeat first [ rewrite <- List.app_assoc | rewrite <- List.app_comm_cons ].
  reflexivity.
Qed.

End PromptFacts.

(** X16. The request that [handleComparePDFs] sends is never rejected as
    missing its prompt: it is sent only with at least two valid documents,
    its prompt is not empty, and [/compare-html] does not answer it with
    400. When the answer is 200, the file the handler has written under
    the answered name holds, for every valid document, the escape of its
    text: each of its characters in order, as itself or as its entity. *)
Theorem handleComparePDFs_request_is_rendered
        (allPdfData : list App.pdf) (prompt : jsstring) :
  App.handleComparePDFs allPdfData = Some prompt ->
  prompt <> []
  /\ (2 <= length (App.successfullyProcessedPdfs allPdfData))%nat
  /\ (forall path_join server_dirname now w,
        let result :=
          compare_html path_join server_dirname (Some (JString prompt)) now w in
        status (fst result) <> 400%nat
        /\ (status (fst result) = 200%nat ->
            body (fst result)
            = ComparisonUrl (u16 "/dashboards/" ++ compare_filename now)
            /\ exists document,
                 files (snd result)
                   !! path_join (dashboardsDir path_join server_dirname)
                                (compare_filename now)
                 = Some document
                 /\ forall pdf,
                      In pdf allPdfData -> App.error pdf = false ->
                      exists pre post,
                        document
                        = pre ++ flat_map escape_char (App.text pdf) ++ post)).
Proof.
  unfold App.handleComparePDFs. cbv zeta.
  destruct (Nat.ltb_spec (length (App.successfullyProcessedPdfs allPdfData)) 2)
    as [|Hlen]; [discriminate|].
  intros [= <-].
  assert (Hne : App.comparisonPrompt (App.successfullyProcessedPdfs allPdfData)
                <> []) by discriminate.
  split; [exact Hne|]. split; [exact Hlen|].
  intros path_join server_dirname now w. cbv zeta.
  rewrite (compare_html_string path_join server_dirname _ now w Hne).
  cbn [fst snd status body json_ok files].
  split; [discriminate|]. intros _. split; [reflexivity|].
  eexists. split; [apply lookup_insert_eq|].
  intros pdf Hin Herr.
  assert (Hs : In pdf (App.successfullyProcessedPdfs allPdfData)).
  { apply List.filter_In. split; [exact Hin|]. now rewrite Herr. }
  destruct (comparisonPrompt_contains _ _ Hs) as (a & b & E).
  rewrite E, !escapeHtml_app, (escapeHtml_flat_map (App.text pdf)).
  unfold comparison_document.
  exists (COMPARISON_HEAD ++ html "<h1>Document Comparison</h1><pre>"
          ++ Escape.escapeHtml a),
         (Escape.escapeHtml b ++ html "</pre></body></html>").
  now rewrite <- !List.app_assoc.
Qed.

Lemma handleComparePDFs_request_is_rendered_witness :
  (2 <= length (App.successfullyProcessedPdfs
                  [ {| App.filename := u16 "a.pdf"; App.text := u16 "x<y";
                       App.error := false |};
                    {| App.filename := u16 "b.pdf"; App.text := u16 "z";
                       App.error := false |} ]))%nat.
Proof.
  exact (proj1 (proj2 (handleComparePDFs_request_is_rendered
    [ {| App.filename := u16 "a.pdf"; App.text := u16 "x<y";
         App.error := false |};
      {| App.filename := u16 "b.pdf"; App.text := u16 "z";
         App.error := false |} ]
    _ eq_refl))).
Defined.

(** * More on the renderer *)

Section RendererMore.

Variable Number_toString : number -> jsstring.

Lemma concat_map_contains {A} (f : A -> jsstring) (l : list A) (x : A) :
  In x l -> exists a b, concat (List.map f l) = a ++ f x ++ b.
Proof.
  induction l as [|y l IH]; [contradiction|]. simpl. intros [->|H].
  - exists [], (concat (List.map f l)). reflexivity.
  - destruct (IH H) as (a & b & E). exists (f y ++ a), b.
    rewrite E. now rewrite <- List.app_assoc.
Qed.

Lemma tableHeader_contains (hs : list jsstring) (h : jsstring) :
  In h hs ->
  exists a b, tableHeader hs = a ++ html "<th>" ++ h ++ html "</th>" ++ b.
Proof.
  intros H. unfold tableHeader.
  destruct (concat_map_contains
              (fun header => html "<th>" ++ header ++ html "</th>") hs h H)
    as (a & b & E).
  rewrite E. exists (html "<tr>" ++ a), (b ++ html "</tr>").
  now rewrite <- !List.app_assoc.
Qed.

Lemma tableRows_contains (vs : list (list cell)) (row : list cell) (c : cell) :
  In row vs -> In c row ->
  exists a b,
    tableRows Number_toString vs
    = a ++ html "<td>" ++ cell_text Number_toString c ++ html "</td>" ++ b.
Proof.
  intros Hrow Hc. unfold tableRows.
  destruct (concat_map_contains
              (fun r => html "<tr>"
                        ++ concat (List.map
                             (fun c => html "<td>" ++ cell_text Number_toString c
                                       ++ html "</td>") r)
                        ++ html "</tr>") vs row Hrow) as (a & b & E).
  rewrite E.
  destruct (concat_map_contains
              (fun c => html "<td>" ++ cell_text Number_toString c ++ html "</td>")
              row c Hc) as (a' & b' & E').
  rewrite E'. exists (a ++ html "<tr>" ++ a'), (b' ++ html "</tr>" ++ b).
  now rewrite <- !List.app_assoc.
Qed.

End RendererMore.

(** X17. The renderer loses nothing: every header of the table stands in
    the document between the tags of a header cell, and every cell of
    every row between the tags of a data cell, a string cell as its text
    and a number as what Number-to-string makes of it. *)
Theorem generateHTML_shows_every_header_and_cell
        (Number_toString : number -> jsstring)
        (hs : list jsstring) (vs : list (list cell)) :
  (forall h, In h hs ->
     exists pre post,
       generateHTML Number_toString hs vs
       = pre ++ html "<th>" ++ h ++ html "</th>" ++ post)
  /\ (forall row c, In row vs -> In c row ->
        exists pre post,
          generateHTML Number_toString hs vs
          = pre ++ html "<td>" ++ cell_text Number_toString c
            ++ html "</td>" ++ post).
Proof.
  split.
  - intros h H. destruct (tableHeader_contains hs h H) as (a & b & E).
    unfold generateHTML. rewrite E.
    exists (nl_lines Template.PAGE_HEAD
            ++ 10 :: html "          <h1>" ++ [55357; 56522]
            ++ html " PDF Table Dashboard</h1>"
            ++ nl_lines Template.TABLE_OPEN
            ++ 10 :: html "                " ++ a).
    exists (b ++ nl_lines Template.TABLE_BODY
            ++ 10 :: html "                " ++ tableRows Number_toString vs
            ++ nl_lines Template.PAGE_TAIL).
    repeat first [ rewrite <- List.app_assoc | rewrite <- List.app_comm_cons ].
    reflexivity.
  - intros row c Hrow Hc.
    destruct (tableRows_contains Number_toString vs row c Hrow Hc)
      as (a & b & E).
    unfold generateHTML. rewrite E.
    exists (nl_lines Template.PAGE_HEAD
            ++ 10 :: html "          <h1>" ++ [55357; 56522]
            ++ html " PDF Table Dashboard</h1>"
            ++ nl_lines Template.TABLE_OPEN
            ++ 10 :: html "                " ++ tableHeader hs
            ++ nl_lines Template.TABLE_BODY
            ++ 10 :: html "                " ++ a).
    exists (b ++ nl_lines Template.PAGE_TAIL).
    repeat first [ rewrite <- List.app_assoc | rewrite <- List.app_comm_cons ].
    reflexivity.
Qed.

Lemma generateHTML_shows_every_header_and_cell_witness :
  exists pre post,
    generateHTML (fun _ => []) [u16 "A"; u16 "B"] [[CStr (u16 "x"); CStr (u16 "y")]]
    = pre ++ html "<td>" ++ u16 "y" ++ html "</td>" ++ post.
Proof.
  apply (proj2 (generateHTML_shows_every_header_and_cell (fun _ => [])
                  [u16 "A"; u16 "B"] [[CStr (u16 "x"); CStr (u16 "y")]])
           [CStr (u16 "x"); CStr (u16 "y")] (CStr (u16 "y"))).
  - now left.
  - right. now left.
Defined.
